(** * A shallow embedding of [server.py]

    The HTTP server of the repository is a single Python file.  Its pure
    part (request parsing, the GET and POST handlers, the response
    builder) is embedded below as Rocq functions.  Python values are
    modelled as the interpreter has them:

    - a [str] is a sequence of Unicode code points,
    - a [bytes] object is a sequence of 8-bit bytes,
    - an exception is a value of [exn] carried by the [result] monad,
    - the file system is a read-only store from paths to nodes,
    - the clock read by [datetime.datetime.now()] is an argument. *)

From Stdlib Require Import List NArith ZArith Bool Lia.
From Stdlib.Strings Require Import Ascii String Byte.
From Stdlib Require Import DecimalNat DecimalString.
Import ListNotations.

Set Implicit Arguments.
Open Scope list_scope.

(** ** The Python runtime used by the server *)

Module Py.

Definition str := list N.
Definition bytes := list byte.

Inductive exn : Type :=
| IndexError
| KeyError (key : str)
| TypeError
| FileNotFoundError
| IsADirectoryError
| PermissionError
| UnicodeDecodeError
| UnicodeEncodeError.

Inductive result (A : Type) : Type :=
| Ok (a : A)
| Raise (e : exn).

Arguments Ok {A} a.
Arguments Raise {A} e.

Definition bind {A B} (m : result A) (k : A -> result B) : result B :=
  match m with
  | Ok a => k a
  | Raise e => Raise e
  end.

(** A string literal of the source; every literal of [server.py] is ASCII. *)
Definition lit (s : string) : str :=
  map N_of_ascii (list_ascii_of_string s).

Definition unlit (s : str) : string :=
  string_of_list_ascii (map ascii_of_N s).

(** [l[i]] on a list. *)
Definition getitem {A} (l : list A) (i : nat) : result A :=
  match nth_error l i with
  | Some a => Ok a
  | None => Raise IndexError
  end.

(** [l[-1]]. *)
Definition getlast {A} (l : list A) : result A :=
  match rev l with
  | a :: _ => Ok a
  | [] => Raise IndexError
  end.

(** [s[1:]]. *)
Definition slice_from1 (s : str) : str := tl s.

Fixpoint starts_with (p s : str) : bool :=
  match p, s with
  | [], _ => true
  | _ :: _, [] => false
  | a :: p', b :: s' => N.eqb a b && starts_with p' s'
  end.

(** [s.find(sub)], the first index where [sub] occurs, or [-1]. *)
Fixpoint find_from (sub s : str) (i : Z) : Z :=
  if starts_with sub s then i
  else match s with
       | [] => (-1)%Z
       | _ :: s' => find_from sub s' (i + 1)%Z
       end.

Definition find (sub s : str) : Z := find_from sub s 0%Z.

(** [s.split(sep)] for a non-empty [sep] (every call of the server passes
    a non-empty literal): the text is cut at the non-overlapping
    occurrences of [sep], scanned from the left.  [skip] counts the
    characters of a matched separator that are still to be dropped. *)
Fixpoint split_from (sep : str) (skip : nat) (s : str) : list str :=
  match s with
  | [] => [[]]
  | c :: s' =>
      match skip with
      | S k => split_from sep k s'
      | O =>
          if starts_with sep s
          then [] :: split_from sep (List.length sep - 1) s'
          else match split_from sep 0 s' with
               | w :: ws => (c :: w) :: ws
               | [] => [[c]]
               end
      end
  end.

Definition split (sep s : str) : list str := split_from sep 0 s.

(** [sep.join(l)]. *)
Fixpoint join (sep : str) (l : list str) : str :=
  match l with
  | [] => []
  | [w] => w
  | w :: ws => w ++ sep ++ join sep ws
  end.

(** [s.replace(old, new)] for a non-empty [old]. *)
Definition replace (old new s : str) : str := join new (split old s).

(** [c.isspace()]: the white space of the Unicode character database. *)
Definition isspace (c : N) : bool :=
  ((9 <=? c) && (c <=? 13) || (28 <=? c) && (c <=? 32)
   || (c =? 133) || (c =? 160) || (c =? 5760)
   || (8192 <=? c) && (c <=? 8202)
   || (c =? 8232) || (c =? 8233) || (c =? 8239) || (c =? 8287)
   || (c =? 12288))%N.

Definition flush_word (cur : str) : list str :=
  match cur with
  | [] => []
  | _ :: _ => [rev cur]
  end.

(** [s.split()] with no argument: the maximal runs of non-space
    characters.  [cur] is the word being read, reversed. *)
Fixpoint split_ws_from (cur : str) (s : str) : list str :=
  match s with
  | [] => flush_word cur
  | c :: s' =>
      if isspace c then flush_word cur ++ split_ws_from [] s'
      else split_ws_from (c :: cur) s'
  end.

Definition split_ws (s : str) : list str := split_ws_from [] s.

Fixpoint lstrip (s : str) : str :=
  match s with
  | c :: s' => if isspace c then lstrip s' else s
  | [] => []
  end.

(** [s.strip()]. *)
Definition strip (s : str) : str := rev (lstrip (rev (lstrip s))).

(** [str(n)] for a non-negative [int]. *)
Definition str_of_nat (n : nat) : str :=
  lit (NilEmpty.string_of_uint (Nat.to_uint n)).

(** [int(s)] restricted to plain decimal digits. *)
Definition int_of_str (s : str) : option nat :=
  match s with
  | [] => None
  | _ :: _ => option_map Nat.of_uint (NilEmpty.uint_of_string (unlit s))
  end.

(** *** UTF-8 *)

Definition byte_of_N (n : N) : byte :=
  match Byte.of_N (n mod 256) with
  | Some b => b
  | None => x00
  end.

(** A code point that UTF-8 can encode: not a surrogate, below 0x110000. *)
Definition is_scalar (c : N) : bool :=
  ((c <? 0xD800) || (0xDFFF <? c) && (c <? 0x110000))%N.

Definition utf8_char (c : N) : bytes :=
  (if c <? 0x80 then [byte_of_N c]
   else if c <? 0x800 then
     [byte_of_N (0xC0 + c / 64); byte_of_N (0x80 + c mod 64)]
   else if c <? 0x10000 then
     [byte_of_N (0xE0 + c / 4096); byte_of_N (0x80 + (c / 64) mod 64);
      byte_of_N (0x80 + c mod 64)]
   else
     [byte_of_N (0xF0 + c / 262144); byte_of_N (0x80 + (c / 4096) mod 64);
      byte_of_N (0x80 + (c / 64) mod 64); byte_of_N (0x80 + c mod 64)])%N.

Definition utf8 (s : str) : bytes := flat_map utf8_char s.

(** [s.encode("utf-8")]: raises on a lone surrogate. *)
Definition encode (s : str) : result bytes :=
  if forallb is_scalar s then Ok (utf8 s) else Raise UnicodeEncodeError.

Inductive errors : Type := Strict | Replace.

(** What the decoder does with an ill-formed sequence: raise, or emit
    U+FFFD and resume at [k]. *)
Definition bad (e : errors) (k : result str) : result str :=
  match e with
  | Strict => Raise UnicodeDecodeError
  | Replace => bind k (fun s => Ok (0xFFFD%N :: s))
  end.

Definition emit (c : N) (k : result str) : result str :=
  bind k (fun s => Ok (c :: s)).

Definition cont (b : N) : bool := ((0x80 <=? b) && (b <=? 0xBF))%N.

(** The second byte a three-byte lead admits (no overlong form, no
    surrogate). *)
Definition second3 (b0 b1 : N) : bool :=
  (cont b1 && negb ((b0 =? 0xE0) && (b1 <? 0xA0))
           && negb ((b0 =? 0xED) && (0xA0 <=? b1)))%N.

(** The second byte a four-byte lead admits (no overlong form, nothing
    above U+10FFFF). *)
Definition second4 (b0 b1 : N) : bool :=
  (cont b1 && negb ((b0 =? 0xF0) && (b1 <? 0x90))
           && negb ((b0 =? 0xF4) && (0x90 <=? b1)))%N.

(** The UTF-8 decoder on byte values.  An ill-formed sequence is cut at
    its longest well-formed prefix, as CPython's codec does. *)
Fixpoint decode_N (e : errors) (bs : list N) {struct bs} : result str :=
  match bs with
  | [] => Ok []
  | b0 :: r0 =>
    (if b0 <? 0x80 then emit b0 (decode_N e r0)
     else if (b0 <? 0xC2) || (0xF4 <? b0) then bad e (decode_N e r0)
     else if b0 <? 0xE0 then
       match r0 with
       | [] => bad e (Ok [])
       | b1 :: r1 =>
         if cont b1
         then emit ((b0 - 0xC0) * 64 + (b1 - 0x80)) (decode_N e r1)
         else bad e (decode_N e r0)
       end
     else if b0 <? 0xF0 then
       match r0 with
       | [] => bad e (Ok [])
       | b1 :: r1 =>
         if second3 b0 b1 then
           match r1 with
           | [] => bad e (Ok [])
           | b2 :: r2 =>
             if cont b2
             then emit ((b0 - 0xE0) * 4096 + (b1 - 0x80) * 64 + (b2 - 0x80))
                       (decode_N e r2)
             else bad e (decode_N e r1)
           end
         else bad e (decode_N e r0)
       end
     else
       match r0 with
       | [] => bad e (Ok [])
       | b1 :: r1 =>
         if second4 b0 b1 then
           match r1 with
           | [] => bad e (Ok [])
           | b2 :: r2 =>
             if cont b2 then
               match r2 with
               | [] => bad e (Ok [])
               | b3 :: r3 =>
                 if cont b3
                 then emit ((b0 - 0xF0) * 262144 + (b1 - 0x80) * 4096
                            + (b2 - 0x80) * 64 + (b3 - 0x80))
                           (decode_N e r3)
                 else bad e (decode_N e r2)
               end
             else bad e (decode_N e r1)
           end
         else bad e (decode_N e r0)
       end)%N
  end.

(** [b.decode("utf-8", errors)]. *)
Definition decode (e : errors) (b : bytes) : result str :=
  decode_N e (map Byte.to_N b).

(** *** [urllib.parse.unquote] *)

Definition hex_val (c : N) : option N :=
  (if (48 <=? c) && (c <=? 57) then Some (c - 48)
   else if (65 <=? c) && (c <=? 70) then Some (c - 55)
   else if (97 <=? c) && (c <=? 102) then Some (c - 87)
   else None)%N.

(** One piece of the text after a ['%']: two hexadecimal digits give a
    byte, anything else keeps the ['%']. *)
Definition unquote_item (item : str) : list N :=
  match item with
  | h :: l :: rest =>
      match hex_val h, hex_val l with
      | Some a, Some b => (16 * a + b)%N :: rest
      | _, _ => 37%N :: item
      end
  | _ => 37%N :: item
  end.

(** [unquote_to_bytes] on an ASCII chunk. *)
Definition unquote_to_bytes (chunk : str) : list N :=
  match split [37%N] chunk with
  | first :: rest => first ++ flat_map unquote_item rest
  | [] => []
  end.

Definition unquote_chunk (chunk : str) : str :=
  match decode_N Replace (unquote_to_bytes chunk) with
  | Ok s => s
  | Raise _ => []
  end.

(** The maximal ASCII runs are percent-decoded and read as UTF-8 with
    replacement; the other characters are kept.  [run] is the ASCII run
    being read, reversed. *)
Fixpoint unquote_parts (run : str) (s : str) : str :=
  match s with
  | [] => unquote_chunk (rev run)
  | c :: s' =>
      if (c <? 0x80)%N then unquote_parts (c :: run) s'
      else unquote_chunk (rev run) ++ c :: unquote_parts [] s'
  end.

(** [urllib.parse.unquote(s)] with its default encoding and errors. *)
Definition unquote (s : str) : str :=
  if existsb (N.eqb 37) s then unquote_parts [] s else s.

(** *** Files *)

(** Universal newlines of text mode: CR LF and a lone CR are read as LF. *)
Fixpoint universal_newlines (s : str) : str :=
  match s with
  | [] => []
  | c :: s' =>
      if (c =? 13)%N then
        match s' with
        | d :: s'' =>
            if (d =? 10)%N then 10%N :: universal_newlines s''
            else 10%N :: universal_newlines s'
        | [] => [10%N]
        end
      else c :: universal_newlines s'
  end.

(** A node of the backing store: its [st_mode] and what
    [open(path, "rb").read()] gives for it: the bytes of a file that the
    server may read, [IsADirectoryError] for a directory,
    [PermissionError] when the permission class of the server itself
    (owner, group or other) lacks read access. *)
Record node : Type := { st_mode : N; data : result bytes }.

Definition filesystem := str -> option node.

(** [open(path, "rb").read()]. *)
Definition read_binary (fs : filesystem) (path : str) : result bytes :=
  match fs path with
  | None => Raise FileNotFoundError
  | Some n => data n
  end.

(** [open(path, "r").read()], the text encoding being UTF-8. *)
Definition read_text (fs : filesystem) (path : str) : result str :=
  bind (read_binary fs path)
       (fun b => bind (decode Strict b)
                      (fun s => Ok (universal_newlines s))).

(** [os.path.exists(path)]. *)
Definition exists_ (fs : filesystem) (path : str) : bool :=
  match fs path with
  | Some _ => true
  | None => false
  end.

End Py.

Import Py.

Notation "x <- m ;; k" := (bind m (fun x => k))
  (at level 61, m at next level, right associativity).

(** ** [server.py] *)

(** Equivalent to CRLF, named NEWLINE for clarity. *)
Definition NEWLINE : str := [13%N; 10%N].

(** [stat.S_IROTH]. *)
Definition S_IROTH : N := 4.

Definition has_permission_other (fs : filesystem) (file_name : str)
  : result bool :=
  match fs file_name with
  | None => Raise FileNotFoundError
  | Some n => Ok (0 <? N.land S_IROTH (st_mode n))%N
  end.

Definition binary_type_files : list str :=
  [lit "jpg"; lit "jpeg"; lit "png"; lit "mp3"].

Definition str_eqb (a b : str) : bool :=
  if list_eq_dec N.eq_dec a b then true else false.

Definition should_return_binary (file_extension : str) : bool :=
  existsb (str_eqb file_extension) binary_type_files.

Definition mime_types : list (str * str) :=
  [ (lit "html", lit "text/html");
    (lit "css", lit "text/css");
    (lit "jpeg", lit "image/jpeg");
    (lit "jpg", lit "image/jpg");
    (lit "js", lit "text/javascript");
    (lit "png", lit "image/png");
    (lit "mp3", lit "audio/mpeg") ].

(** [d[k]] on a dictionary. *)
Fixpoint dict_get (d : list (str * str)) (k : str) : result str :=
  match d with
  | [] => Raise (KeyError k)
  | (k', v) :: d' => if str_eqb k k' then Ok v else dict_get d' k
  end.

(** The argument is [None] or a string, as the test [is not None] of the
    source distinguishes them. *)
Definition get_file_mime_type (file_extension : option str) : result str :=
  match file_extension with
  | Some e => dict_get mime_types e
  | None => Ok (lit "text/plain")
  end.

(** *** class ResponseBuilder *)

(** The value of [self.content]: the text it is initialised to, or the
    bytes [set_content] stores. *)
Inductive value : Type :=
| VStr (s : str)
| VBytes (b : bytes).

Record ResponseBuilder : Type := {
  headers : list str;
  status : option str;
  content : value;
  content_type : option str
}.

Definition ResponseBuilder_init : ResponseBuilder :=
  {| headers := []; status := None; content := VStr []; content_type := None |}.

Definition add_header (self : ResponseBuilder) (headerKey headerValue : str)
  : ResponseBuilder :=
  {| headers := headers self ++ [headerKey ++ lit ": " ++ headerValue];
     status := status self;
     content := content self;
     content_type := content_type self |}.

Definition set_status (self : ResponseBuilder) (statusCode statusMessage : str)
  : ResponseBuilder :=
  {| headers := headers self;
     status := Some (lit "HTTP/1.1 " ++ statusCode ++ lit " " ++ statusMessage);
     content := content self;
     content_type := content_type self |}.

Definition with_content (self : ResponseBuilder) (c : value) : ResponseBuilder :=
  {| headers := headers self;
     status := status self;
     content := c;
     content_type := content_type self |}.

Definition set_content (self : ResponseBuilder) (c : value)
  : result ResponseBuilder :=
  match c with
  | VBytes b => Ok (with_content self (VBytes b))
  | VStr s => b <- encode s ;; Ok (with_content self (VBytes b))
  end.

(** The assignment [builder.content_type = v]. *)
Definition set_content_type (self : ResponseBuilder) (v : option str)
  : ResponseBuilder :=
  {| headers := headers self;
     status := status self;
     content := content self;
     content_type := v |}.

(** [self.content == ""]: a [bytes] object never equals a [str]. *)
Definition is_empty_str (c : value) : bool :=
  match c with
  | VStr [] => true
  | _ => false
  end.

(** [len(self.content)]. *)
Definition len (c : value) : nat :=
  match c with
  | VStr s => List.length s
  | VBytes b => List.length b
  end.

(** How an f-string renders [self.content_type]. *)
Definition format_opt (v : option str) : str :=
  match v with
  | Some s => s
  | None => lit "None"
  end.

(** The header appends of [build], up to the line [headers = ...]. *)
Definition build_headers (self : ResponseBuilder) (now : str)
  : ResponseBuilder :=
  let self := add_header self (lit "Date: ") now in
  if is_empty_str (content self) then
    let content_type := lit "text/plain" in
    let self := add_header self (lit "Content-Type: ") content_type in
    let content_length := 0 in
    let self :=
      add_header self (lit "Content-Length: ") (str_of_nat content_length) in
    add_header self (lit "Server: ") (lit "Jacks HTTP server")
  else
    let content_type := content_type self in
    let self :=
      add_header self (lit "Content-Type: ") (format_opt content_type) in
    let content_length := len (content self) in
    let self :=
      add_header self (lit "Content-Length: ") (str_of_nat content_length) in
    add_header self (lit "Server: ") (lit "Jacks HTTP server").

(** [self.status + NEWLINE]: a status still [None] is a [TypeError]. *)
Definition status_text (self : ResponseBuilder) : result str :=
  match status self with
  | Some s => Ok s
  | None => Raise TypeError
  end.

(** [build], [now] being the text of [datetime.datetime.now()]. *)
Definition build (self : ResponseBuilder) (now : str) : result bytes :=
  let self := build_headers self now in
  let headers := join NEWLINE (headers self) ++ NEWLINE in
  match content self with
  | VBytes c =>
      st <- status_text self ;;
      let final_response := st ++ NEWLINE ++ headers ++ NEWLINE in
      head <- encode final_response ;;
      tail <- encode NEWLINE ;;
      Ok (head ++ c ++ tail)
  | VStr c =>
      st <- status_text self ;;
      let final_response := st ++ NEWLINE ++ headers ++ NEWLINE ++ c ++ NEWLINE in
      encode final_response
  end.

(** *** class HTTPServer *)

Definition method_not_allowed (now : str) : result bytes :=
  let builder := ResponseBuilder_init in
  let builder := set_status builder (lit "405") (lit "METHOD NOT ALLOWED") in
  let allowed := join (lit ", ") [lit "GET"; lit "POST"] in
  let builder := add_header builder (lit "Allow") allowed in
  let builder := add_header builder (lit "Connection") (lit "close") in
  build builder now.

Definition resource_not_found (fs : filesystem) (now : str) : result bytes :=
  let builder := ResponseBuilder_init in
  let builder := set_status builder (lit "404") (lit "RESOURCE NOT FOUND") in
  let builder := add_header builder (lit "Connection") (lit "close") in
  let error_file := lit "./404.html" in
  text <- read_text fs error_file ;;
  builder <- set_content builder (VStr text) ;;
  let builder := set_content_type builder (Some (lit "text/html")) in
  build builder now.

Definition resource_forbidden (fs : filesystem) (now : str) : result bytes :=
  let builder := ResponseBuilder_init in
  let builder := set_status builder (lit "403") (lit "RESOURCE FORBIDDEN") in
  let builder := add_header builder (lit "Connection") (lit "close") in
  let error_file := lit "./403.html" in
  text <- read_text fs error_file ;;
  builder <- set_content builder (VStr text) ;;
  let builder := set_content_type builder (Some (lit "text/html")) in
  build builder now.

(** Lines 162-164 of [get_request]: the extension of the resolved path. *)
Definition file_extension_of (requested_file : str) : result str :=
  if Z.eqb (find (lit ".") requested_file) (-1)
  then Ok (lit "")
  else getitem (split (lit ".") requested_file) 2.

(** [open(requested_file, mode)] and [f.read()]. *)
Definition read_file (fs : filesystem) (requested_file : str) (binary : bool)
  : result value :=
  if binary
  then b <- read_binary fs requested_file ;; Ok (VBytes b)
  else s <- read_text fs requested_file ;; Ok (VStr s).

Definition get_request (fs : filesystem) (now : str)
           (requested_file : str) (data : list str) : result bytes :=
  let requested_file := lit "./" ++ requested_file in
  if negb (exists_ fs requested_file) then resource_not_found fs now
  else
    allowed <- has_permission_other fs requested_file ;;
    if negb allowed then resource_forbidden fs now
    else
      file_extension <- file_extension_of requested_file ;;
      response_body <-
        read_file fs requested_file (should_return_binary file_extension) ;;
      let builder := ResponseBuilder_init in
      let builder := set_status builder (lit "200") (lit "OK") in
      let builder := add_header builder (lit "Connection") (lit "close") in
      builder <- set_content builder response_body ;;
      mime <- get_file_mime_type (Some file_extension) ;;
      let builder := set_content_type builder (Some mime) in
      build builder now.

Definition formatString (stringToParse : str) : result str :=
  let splitString := split (lit "=") stringToParse in
  event <- getitem splitString 1 ;;
  let final_value := replace (lit "+") (lit " ") event in
  Ok final_value.

(** The text of the HTML template, line by line. *)
Definition sp (n : nat) : str := repeat 32%N n.
Definition nl : str := [10%N].
Definition dq : str := [34%N].
Definition line (indent : nat) (text : string) : str :=
  sp indent ++ lit text ++ nl.

Definition html_head : str :=
  lit "<html>" ++ nl
  ++ line 24 "<style>"
  ++ line 24 "table, th, td {"
  ++ line 26 "border:1px solid black;"
  ++ line 24 "}"
  ++ line 24 "</style>"
  ++ line 24 "<body>"
  ++ nl
  ++ sp 24 ++ lit "<table style=" ++ dq ++ lit "width:100%" ++ dq ++ lit ">" ++ nl
  ++ line 26 "<tr>"
  ++ line 28 "<th>event</th>"
  ++ sp 28 ++ lit "<th>".

(** The text between two values, for a row that is closed by [</tr>]. *)
Definition html_next_closed (label : string) : str :=
  lit "</th>" ++ nl
  ++ line 26 "</tr>"
  ++ line 26 "<tr>"
  ++ sp 28 ++ lit "<th>" ++ lit label ++ lit "</th>" ++ nl
  ++ sp 28 ++ lit "<th>".

(** The text between two values, for a row the template leaves open. *)
Definition html_next_open (label : string) : str :=
  lit "</th>" ++ nl
  ++ line 26 "<tr>"
  ++ sp 28 ++ lit "<th>" ++ lit label ++ lit "</th>" ++ nl
  ++ sp 28 ++ lit "<th>".

Definition html_tail : str :=
  lit "</th>" ++ nl
  ++ line 24 "</table>"
  ++ nl
  ++ line 24 "</body>"
  ++ line 24 "</html>"
  ++ sp 24.

(** The value of [html] in [post_request], for the eight values. *)
Definition html_page (v0 v1 v2 v3 v4 v5 v6 v7 : str) : str :=
  html_head ++ v0
  ++ html_next_closed "day" ++ v1
  ++ html_next_closed "start" ++ v2
  ++ html_next_closed "end" ++ v3
  ++ html_next_closed "phone" ++ v4
  ++ html_next_closed "location" ++ v5
  ++ html_next_open "info" ++ v6
  ++ html_next_open "url" ++ v7
  ++ html_tail.

(** [self.formatString(usefulStrings[i])]. *)
Definition format_field (usefulStrings : list str) (i : nat) : result str :=
  f <- getitem usefulStrings i ;; formatString f.

Definition post_request (now : str) (requested_file : str) (data : list str)
  : result bytes :=
  usefulString <- getlast data ;;
  let usefulString := unquote usefulString in
  let usefulStrings := split (lit "&") usefulString in
  v0 <- format_field usefulStrings 0 ;;
  v1 <- format_field usefulStrings 1 ;;
  v2 <- format_field usefulStrings 2 ;;
  v3 <- format_field usefulStrings 3 ;;
  v4 <- format_field usefulStrings 4 ;;
  v5 <- format_field usefulStrings 5 ;;
  v6 <- format_field usefulStrings 6 ;;
  v7 <- format_field usefulStrings 7 ;;
  let html := html_page v0 v1 v2 v3 v4 v5 v6 v7 in
  let builder := ResponseBuilder_init in
  let builder := set_status builder (lit "200") (lit "OK") in
  let builder := add_header builder (lit "Connection") (lit "close") in
  builder <- set_content builder (VStr html) ;;
  let builder := set_content_type builder (Some (lit "text/html")) in
  build builder now.

(** [process_response] returns [None] for a request without words. *)
Definition process_response (fs : filesystem) (now : str) (request : str)
  : result (option bytes) :=
  let formatted_data := split NEWLINE (strip request) in
  first_line <- getitem formatted_data 0 ;;
  let request_words := split_ws first_line in
  if Nat.eqb (List.length request_words) 0 then Ok None
  else
    target <- getitem request_words 1 ;;
    let requested_file := slice_from1 target in
    method <- getitem request_words 0 ;;
    if str_eqb method (lit "GET") then
      r <- get_request fs now requested_file formatted_data ;; Ok (Some r)
    else if str_eqb method (lit "POST") then
      r <- post_request now requested_file formatted_data ;; Ok (Some r)
    else
      r <- method_not_allowed now ;; Ok (Some r).

(** What [accept_request] sends on the socket for the bytes it received:
    any exception is printed and ends the handling, and so does the
    attempt to send the [None] of an empty request. *)
Definition accept_request (fs : filesystem) (now : str) (data : bytes)
  : option bytes :=
  match (req <- decode Strict data ;; process_response fs now req) with
  | Ok (Some response) => Some response
  | Ok None => None
  | Raise _ => None
  end.

(** ** Vocabulary of the statements *)

(** The two bytes of the line terminator. *)
Definition CRLF : bytes := [x0d; x0a].

(** Header lines on the wire, each one terminated. *)
Definition header_block (hs : list str) : bytes :=
  flat_map (fun h => utf8 h ++ CRLF) hs.

(** A response on the wire: status line, header lines, a blank line, the
    body and a last terminator. *)
Definition message (status_line : str) (hs : list str) (body : bytes) : bytes :=
  utf8 status_line ++ CRLF ++ header_block hs ++ CRLF ++ body ++ CRLF.

(** The bytes of the body that [build] puts in the message. *)
Definition body_of (c : value) : bytes :=
  match c with
  | VBytes b => b
  | VStr s => utf8 s
  end.

(** A header line of HTTP: the name, one colon, one space, the value. *)
Definition header_line (name value : str) : str := name ++ lit ": " ++ value.

(** The lines [build] appends to the headers the handler added. *)
Definition appended (self : ResponseBuilder) (now : str) : list str :=
  skipn (List.length (headers self)) (headers (build_headers self now)).

(** The calls a handler makes on a builder before [build]. *)
Inductive call : Type :=
| AddHeader (headerKey headerValue : str)
| SetStatus (statusCode statusMessage : str)
| SetContent (c : value)
| SetContentType (t : option str).

Definition apply_call (self : ResponseBuilder) (c : call)
  : result ResponseBuilder :=
  match c with
  | AddHeader k v => Ok (add_header self k v)
  | SetStatus k m => Ok (set_status self k m)
  | SetContent v => set_content self v
  | SetContentType t => Ok (set_content_type self t)
  end.

Fixpoint run (cs : list call) (self : ResponseBuilder) : result ResponseBuilder :=
  match cs with
  | [] => Ok self
  | c :: cs' => self' <- apply_call self c ;; run cs' self'
  end.

(** The first line of a request, as [process_response] takes it. *)
Definition request_line (request : str) : str :=
  hd [] (split NEWLINE (strip request)).

(** The last line of a request, the form body of a POST. *)
Definition body_line (request : str) : str :=
  last (split NEWLINE (strip request)) [].

(** The ['&']-separated fields of a URL-decoded form body. *)
Definition form_fields (body : str) : list str :=
  split (lit "&") (unquote body).

Definition dots (s : str) : nat := count_occ N.eq_dec s 46%N.

(** The rows of the page of [post_request]: a cell per line, the label
    first, the value second. *)
Definition cell (v : str) : str := sp 28 ++ lit "<th>" ++ v ++ lit "</th>" ++ nl.

Definition row (label : string) (v : str) : str :=
  line 26 "<tr>" ++ cell (lit label) ++ cell v.

Definition page_open : str :=
  lit "<html>" ++ nl
  ++ line 24 "<style>"
  ++ line 24 "table, th, td {"
  ++ line 26 "border:1px solid black;"
  ++ line 24 "}"
  ++ line 24 "</style>"
  ++ line 24 "<body>"
  ++ nl
  ++ sp 24 ++ lit "<table style=" ++ dq ++ lit "width:100%" ++ dq ++ lit ">" ++ nl.

Definition page_close : str :=
  line 24 "</table>" ++ nl ++ line 24 "</body>" ++ line 24 "</html>" ++ sp 24.

(** The page for the values of the eight fields, in the order of the form. *)
Definition page (vs : list str) : str :=
  page_open
  ++ row "event" (nth 0 vs []) ++ line 26 "</tr>"
  ++ row "day" (nth 1 vs []) ++ line 26 "</tr>"
  ++ row "start" (nth 2 vs []) ++ line 26 "</tr>"
  ++ row "end" (nth 3 vs []) ++ line 26 "</tr>"
  ++ row "phone" (nth 4 vs []) ++ line 26 "</tr>"
  ++ row "location" (nth 5 vs [])
  ++ row "info" (nth 6 vs [])
  ++ row "url" (nth 7 vs [])
  ++ page_close.

(** The fragments [key=value] of a list of keys and a list of values. *)
Definition fields (ks vs : list str) : list str :=
  map (fun kv => fst kv ++ lit "=" ++ snd kv) (combine ks vs).

Definition plus_to_space (v : str) : str := replace (lit "+") (lit " ") v.

(** The headers of a response of the server whose body has [n] bytes. *)
Definition response_headers (extra : list str) (now ctype : str) (n : nat)
  : list str :=
  extra ++
  [ lit "Date: " ++ lit ": " ++ now;
    lit "Content-Type: " ++ lit ": " ++ ctype;
    lit "Content-Length: " ++ lit ": " ++ str_of_nat n;
    lit "Server: " ++ lit ": " ++ lit "Jacks HTTP server" ].

(** *** Sample inputs *)

Definition sample_now : str := lit "2026-11-03 13:32:00.123456".

(** The modes 0o100644 and 0o100660 of a regular file. *)
Definition rw_r__r__ : N := 33188.
Definition rw_rw____ : N := 33200.

Definition regular (mode : N) (content : bytes) : node :=
  {| st_mode := mode; data := Ok content |}.

(** A serving root with the two error pages, a text file of an extension
    the table lacks, a file without extension, an empty page, a picture
    and a page that others may not read. *)
Definition sample_fs : filesystem :=
  fun path =>
    if str_eqb path (lit "./404.html") then
      Some (regular rw_r__r__ (utf8 (lit "<h1>not found</h1>")))
    else if str_eqb path (lit "./403.html") then
      Some (regular rw_r__r__ (utf8 (lit "<h1>forbidden</h1>")))
    else if str_eqb path (lit "./notes.txt") then
      Some (regular rw_r__r__ (utf8 (lit "hello")))
    else if str_eqb path (lit "./README") then
      Some (regular rw_r__r__ (utf8 (lit "read me")))
    else if str_eqb path (lit "./empty.html") then
      Some (regular rw_r__r__ [])
    else if str_eqb path (lit "./pic.png") then
      Some (regular rw_r__r__ [x89; x50; x4e; x47; x0d; x0a; x1a; x0a; xff; x00])
    else if str_eqb path (lit "./secret.html") then
      Some (regular rw_rw____ (utf8 (lit "<p>private</p>")))
    else None.

Definition sample_form : str :=
  lit "event=Team+lunch&day=Mon&start=12:00&end=13:00&phone=555&location=Hall+B&info=bring+id&url=http://x.org/a".

Definition sample_post : list str :=
  [lit "POST /EventLog.html HTTP/1.1"; lit "Host: localhost"; lit ""; sample_form].

(** A well-formed form whose [info] value holds an escaped ['&']. *)
Definition escaped_form : str :=
  lit "event=a&day=b&start=c&end=d&phone=e&location=f&info=Tom%26Jerry&url=h".

Definition short_form : str := lit "event=a&day=b".

(** The calls of a handler that answers with the text [héllo]. *)
Definition sample_text : str := [104; 233; 108; 108; 111]%N.

Definition sample_calls : list call :=
  [ SetStatus (lit "200") (lit "OK");
    AddHeader (lit "Connection") (lit "close");
    SetContent (VStr sample_text);
    SetContentType (Some (lit "text/html")) ].

Definition sample_builder : ResponseBuilder :=
  {| headers := [lit "Connection: close"];
     status := Some (lit "HTTP/1.1 200 OK");
     content := VBytes (utf8 sample_text);
     content_type := Some (lit "text/html") |}.

Definition sample_message : bytes :=
  message (lit "HTTP/1.1 200 OK")
          [ lit "Connection: close";
            lit "Date: : 2026-11-03 13:32:00.123456";
            lit "Content-Type: : text/html";
            lit "Content-Length: : 6";
            lit "Server: : Jacks HTTP server" ]
          (utf8 sample_text).

(** The calls of a handler that sets an empty body, as for an empty page. *)
Definition empty_calls : list call :=
  [ SetStatus (lit "200") (lit "OK");
    AddHeader (lit "Connection") (lit "close");
    SetContent (VBytes []);
    SetContentType (Some (lit "text/html")) ].

Definition empty_builder : ResponseBuilder :=
  {| headers := [lit "Connection: close"];
     status := Some (lit "HTTP/1.1 200 OK");
     content := VBytes [];
     content_type := Some (lit "text/html") |}.

Definition empty_message (ctype : string) : bytes :=
  message (lit "HTTP/1.1 200 OK")
          [ lit "Connection: close";
            lit "Date: : 2026-11-03 13:32:00.123456";
            lit "Content-Type: : " ++ lit ctype;
            lit "Content-Length: : 0";
            lit "Server: : Jacks HTTP server" ]
          [].

Definition sample_keys : list str :=
  [lit "event"; lit "day"; lit "start"; lit "end"; lit "phone";
   lit "location"; lit "info"; lit "url"].

Definition sample_values : list str :=
  [lit "Team+lunch"; lit "Mon"; lit "12:00"; lit "13:00"; lit "555";
   lit "Hall+B"; lit "bring+id"; lit "http://x.org/a"].

Definition escaped_post : list str :=
  [lit "POST /EventLog.html HTTP/1.1"; lit "Host: localhost"; lit ""; escaped_form].

(** Requests as they are received. *)
Definition short_request : str :=
  lit "POST /EventLog.html HTTP/1.1" ++ NEWLINE ++ lit "Host: localhost"
  ++ NEWLINE ++ NEWLINE ++ short_form.

Definition one_word_request : str :=
  lit "GET" ++ NEWLINE ++ lit "Host: localhost" ++ NEWLINE ++ NEWLINE.

(** ** Further vocabulary *)

(** The header lines that the calls of a handler add, in their order. *)
Definition header_lines_of (cs : list call) : list str :=
  flat_map (fun c => match c with
                     | AddHeader k v => [header_line k v]
                     | _ => []
                     end) cs.

Definition sets_status (c : call) : bool :=
  match c with SetStatus _ _ => true | _ => false end.

Definition sets_content (c : call) : bool :=
  match c with SetContent _ => true | _ => false end.

Definition sets_content_type (c : call) : bool :=
  match c with SetContentType _ => true | _ => false end.

(** The text a call passes can be encoded. *)
Definition call_encodable (c : call) : bool :=
  match c with
  | AddHeader k v => forallb is_scalar k && forallb is_scalar v
  | SetStatus k m => forallb is_scalar k && forallb is_scalar m
  | SetContent _ => true
  | SetContentType (Some t) => forallb is_scalar t
  | SetContentType None => true
  end.

(** A second [build] on the same builder: the first one has appended its
    four lines to [self.headers]. *)
Definition build_again (self : ResponseBuilder) (now1 now2 : str) : result bytes :=
  build (build_headers self now1) now2.

(** The value [formatString] gives for a fragment that holds ['=']. *)
Definition field_value (fragment : str) : str :=
  plus_to_space (nth 1 (split (lit "=") fragment) []).

(** What the calls leave in a builder can be encoded when what they pass
    can. *)
Definition encodable_builder (self : ResponseBuilder) : Prop :=
  forallb (forallb is_scalar) (headers self) = true
  /\ (forall st, status self = Some st -> forallb is_scalar st = true)
  /\ forallb is_scalar (format_opt (content_type self)) = true
  /\ (forall s, content self = VStr s -> forallb is_scalar s = true).

(** The two readers of the head of [server.py]. *)
Definition get_file_contents (fs : filesystem) (file_name : str) : result str :=
  read_text fs file_name.

Definition get_file_binary_contents (fs : filesystem) (file_name : str)
  : result bytes :=
  read_binary fs file_name.

(** *** More sample inputs *)

Definition cookie_calls : list call :=
  [ AddHeader (lit "Set-Cookie") (lit "a=1");
    SetStatus (lit "200") (lit "OK");
    AddHeader (lit "Set-Cookie") (lit "b=2");
    AddHeader (lit "Set-Cookie") (lit "a=1") ].

Definition cookie_builder : ResponseBuilder :=
  {| headers := [lit "Set-Cookie: a=1"; lit "Set-Cookie: b=2"; lit "Set-Cookie: a=1"];
     status := Some (lit "HTTP/1.1 200 OK");
     content := VStr [];
     content_type := None |}.

Definition statusless_calls : list call :=
  [ AddHeader (lit "Connection") (lit "close"); SetContent (VStr (lit "hi")) ].

Definition statusless_builder : ResponseBuilder :=
  {| headers := [lit "Connection: close"];
     status := None;
     content := VBytes (utf8 (lit "hi"));
     content_type := None |}.

Definition untyped_calls : list call :=
  [ SetStatus (lit "200") (lit "OK"); SetContent (VStr (lit "hi")) ].

Definition untyped_builder : ResponseBuilder :=
  {| headers := [];
     status := Some (lit "HTTP/1.1 200 OK");
     content := VBytes (utf8 (lit "hi"));
     content_type := None |}.

Definition later : str := lit "2026-11-03 13:32:01.000001".

(** The mode 0o40755 of a directory. *)
Definition rwxr_xr_x_dir : N := 16877.

(** A serving root without error pages: the directory itself, a page with
    CR LF line ends and a page that others may not read. *)
Definition bare_fs : filesystem :=
  fun path =>
    if str_eqb path (lit "./") then
      Some {| st_mode := rwxr_xr_x_dir; data := Raise IsADirectoryError |}
    else if str_eqb path (lit "./dos.html") then
      Some (regular rw_r__r__ [x68; x69; x0d; x0a; xc3; xa9; x0d; x0a])
    else if str_eqb path (lit "./secret.html") then
      Some (regular rw_rw____ (utf8 (lit "<p>private</p>")))
    else None.

(** Two GET requests for the same file, and two POST requests with the
    same form. *)
Definition plain_get : str := lit "GET /secret.html HTTP/1.1".

Definition dressed_get : str :=
  lit "GET xsecret.html HTTP/1.0" ++ NEWLINE ++ lit "Host: example.org"
  ++ NEWLINE ++ lit "Accept: */*".

Definition plain_post : str :=
  lit "POST / HTTP/1.1" ++ NEWLINE ++ NEWLINE ++ sample_form.

Definition other_post : str :=
  lit "POST /elsewhere?x=1 HTTP/1.0" ++ NEWLINE ++ lit "Host: example.org"
  ++ NEWLINE ++ NEWLINE ++ sample_form.

(** A form of nine fragments whose values hold ['='] and ['+']. *)
Definition loose_form : str :=
  lit "event=a=b&day=c+d&start==&end=1&phone=2&location=3&info=4&url=5&more".

Definition loose_fields : list str :=
  [lit "event=a=b"; lit "day=c+d"; lit "start=="; lit "end=1"; lit "phone=2";
   lit "location=3"; lit "info=4"; lit "url=5"].

(** A form whose third fragment holds no ['=']. *)
Definition bare_form : str :=
  lit "event=a&day=b&start&end=d&phone=e&location=f&info=g&url=h".

(** A request of white space only. *)
Definition blank_request : str := [32; 13; 10; 9; 13; 10]%N.



(** The mode 0o100004: others may read, the owner may not. *)
Definition others_only : N := 32772.

(** A serving root whose page belongs to the server, which may not read
    it. *)
Definition owner_fs : filesystem :=
  fun path =>
    if str_eqb path (lit "./mine.html") then
      Some {| st_mode := others_only; data := Raise PermissionError |}
    else None.

(** ** Facts about the runtime *)

Lemma bind_ok {A B} (m : result A) (k : A -> result B) (b : B) :
  bind m k = Ok b -> exists a, m = Ok a /\ k a = Ok b.
Proof.
  destruct m as [a | e]; simpl; intro H.
  - exists a. split; [reflexivity | exact H].
  - discriminate H.
Qed.

Lemma str_eqb_eq (a b : str) : str_eqb a b = true <-> a = b.
Proof.
  unfold str_eqb. destruct (list_eq_dec N.eq_dec a b); split; congruence.
Qed.

Lemma str_eqb_refl (a : str) : str_eqb a a = true.
Proof. apply str_eqb_eq. reflexivity. Qed.

Lemma utf8_app (a b : str) : utf8 (a ++ b) = utf8 a ++ utf8 b.
Proof. unfold utf8. apply flat_map_app. Qed.

Lemma utf8_NEWLINE : utf8 NEWLINE = CRLF.
Proof. reflexivity. Qed.

Lemma encode_ok (s : str) (b : bytes) :
  encode s = Ok b <-> forallb is_scalar s = true /\ b = utf8 s.
Proof.
  unfold encode. destruct (forallb is_scalar s); split.
  - intro H. inversion H. split; reflexivity.
  - intros [_ H]. rewrite H. reflexivity.
  - discriminate.
  - intros [H _]. discriminate H.
Qed.

Lemma encode_scalar (s : str) :
  forallb is_scalar s = true -> encode s = Ok (utf8 s).
Proof. intro H. apply encode_ok. split; [exact H | reflexivity]. Qed.

Lemma scalar_lit_app (a b : str) :
  forallb is_scalar (a ++ b) = forallb is_scalar a && forallb is_scalar b.
Proof. apply forallb_app. Qed.

(** [str] and [int] agree: the digits written are read back. *)
Lemma unlit_lit (s : string) : unlit (lit s) = s.
Proof.
  unfold unlit, lit. rewrite map_map.
  rewrite (map_ext _ (fun a => a)).
  - rewrite map_id. apply string_of_list_ascii_of_string.
  - intro a. apply ascii_N_embedding.
Qed.

Lemma int_of_str_of_nat (n : nat) : int_of_str (str_of_nat n) = Some n.
Proof.
  unfold int_of_str, str_of_nat.
  remember (lit (NilEmpty.string_of_uint (Nat.to_uint n))) as s eqn:Es.
  destruct s as [| c s'].
  - exfalso. apply (f_equal unlit) in Es. rewrite unlit_lit in Es.
    simpl in Es.
    pose proof (NilEmpty.usu (Nat.to_uint n)) as U. rewrite <- Es in U.
    simpl in U. inversion U as [E0].
    pose proof (Unsigned.of_to n) as R. rewrite <- E0 in R.
    pose proof (Unsigned.to_of (Nat.to_uint n)) as T.
    destruct n; [ | ].
    + vm_compute in E0. discriminate E0.
    + assert (K : Nat.of_uint Decimal.Nil = 0) by reflexivity.
      rewrite K in R. discriminate R.
  - rewrite Es, unlit_lit, NilEmpty.usu. simpl.
    f_equal. apply Unsigned.of_to.
Qed.

(** *** [split] on a one-character separator *)

Lemma split_from_cons (sep : str) (k : nat) (s : str) :
  split_from sep k s <> [].
Proof.
  revert k. induction s as [| c s IH]; intro k; simpl.
  - discriminate.
  - destruct k as [| k].
    + destruct (starts_with sep (c :: s)); [discriminate | ].
      destruct (split_from sep 0 s); discriminate.
    + apply IH.
Qed.

Lemma split_nonempty (sep s : str) :
  exists w ws, split sep s = w :: ws.
Proof.
  unfold split. destruct (split_from sep 0 s) as [| w ws] eqn:E.
  - exfalso. exact (split_from_cons _ _ _ E).
  - exists w, ws. reflexivity.
Qed.

Lemma split1_nil (c : N) : split [c] [] = [[]].
Proof. reflexivity. Qed.

Lemma split1_sep (c : N) (s : str) : split [c] (c :: s) = [] :: split [c] s.
Proof. unfold split. simpl. rewrite N.eqb_refl. reflexivity. Qed.

Lemma split1_other (c d : N) (s : str) :
  d <> c ->
  split [c] (d :: s) = (d :: hd [] (split [c] s)) :: tl (split [c] s).
Proof.
  intro Hd. unfold split. simpl.
  destruct (N.eqb_spec c d) as [E | _]; [congruence | ]. simpl.
  destruct (split_from [c] 0 s) as [| w ws] eqn:E.
  - exfalso. exact (split_from_cons _ _ _ E).
  - reflexivity.
Qed.

(** A piece that holds no separator is cut off whole. *)
Lemma split1_piece (c : N) (w s : str) :
  ~ In c w -> split [c] (w ++ c :: s) = w :: split [c] s.
Proof.
  induction w as [| d w IH]; intro Hw; simpl.
  - apply split1_sep.
  - rewrite split1_other.
    + rewrite IH; [reflexivity | ]. intro H. apply Hw. right. exact H.
    + intro E. apply Hw. left. exact E.
Qed.

Lemma split1_whole (c : N) (w : str) : ~ In c w -> split [c] w = [w].
Proof.
  induction w as [| d w IH]; intro Hw.
  - reflexivity.
  - rewrite split1_other.
    + rewrite IH; [reflexivity | ]. intro H. apply Hw. right. exact H.
    + intro E. apply Hw. left. exact E.
Qed.

(** Cutting a joined text gives the pieces back. *)
Lemma split1_join (c : N) (w : str) (ws : list str) :
  Forall (fun x => ~ In c x) (w :: ws) ->
  split [c] (join [c] (w :: ws)) = w :: ws.
Proof.
  revert w. induction ws as [| v ws IH]; intros w H.
  - simpl. apply split1_whole. inversion H. assumption.
  - inversion H as [| ? ? Hw Hrest]; subst.
    change (join [c] (w :: v :: ws)) with (w ++ c :: join [c] (v :: ws)).
    rewrite split1_piece by exact Hw.
    rewrite IH by exact Hrest. reflexivity.
Qed.

(** The pieces are one more than the separators. *)
Lemma split1_length (c : N) (s : str) :
  List.length (split [c] s) = S (count_occ N.eq_dec s c).
Proof.
  induction s as [| d s IH].
  - reflexivity.
  - destruct (N.eq_dec d c) as [E | E].
    + subst d. rewrite split1_sep. simpl.
      destruct (N.eq_dec c c); [ | congruence]. rewrite IH. reflexivity.
    + rewrite split1_other by exact E. simpl.
      destruct (N.eq_dec d c); [congruence | ].
      rewrite <- IH.
      destruct (split_nonempty [c] s) as (w & ws & Es). rewrite Es.
      reflexivity.
Qed.


(** ** The response builder *)

Section Builder.

Variable now : str.

Lemma build_headers_status (self : ResponseBuilder) :
  status (build_headers self now) = status self.
Proof. unfold build_headers. simpl. destruct (is_empty_str (content self)); reflexivity. Qed.

Lemma build_headers_content (self : ResponseBuilder) :
  content (build_headers self now) = content self.
Proof. unfold build_headers. simpl. destruct (is_empty_str (content self)); reflexivity. Qed.

(** The four lines of [build], after the headers of the handler. *)
Lemma build_headers_lines (self : ResponseBuilder) :
  headers (build_headers self now) =
  if is_empty_str (content self)
  then response_headers (headers self) now (lit "text/plain") 0
  else response_headers (headers self) now
                        (format_opt (content_type self)) (len (content self)).
Proof.
  unfold build_headers, response_headers. simpl.
  destruct (is_empty_str (content self)); simpl;
    repeat rewrite <- app_assoc; reflexivity.
Qed.

Lemma build_headers_nonempty (self : ResponseBuilder) :
  headers (build_headers self now) <> [].
Proof.
  rewrite build_headers_lines. unfold response_headers.
  destruct (is_empty_str (content self)); intro H;
    apply app_eq_nil in H; destruct H as [_ H]; discriminate H.
Qed.

(** Joining with the terminator and closing with one more is ending each
    line with it. *)
Lemma join_header_block (hs : list str) :
  hs <> [] -> utf8 (join NEWLINE hs ++ NEWLINE) = header_block hs.
Proof.
  induction hs as [| h hs IH]; intro Hne; [congruence | ].
  destruct hs as [| h' hs'].
  - simpl. rewrite utf8_app, app_nil_r. reflexivity.
  - change (join NEWLINE (h :: h' :: hs'))
      with (h ++ NEWLINE ++ join NEWLINE (h' :: hs')).
    repeat rewrite <- app_assoc. rewrite utf8_app, utf8_app.
    rewrite IH by discriminate. rewrite utf8_NEWLINE.
    change (header_block (h :: h' :: hs'))
      with ((utf8 h ++ CRLF) ++ header_block (h' :: hs')).
    rewrite <- app_assoc. reflexivity.
Qed.

(** The bytes [build] returns, when it returns. *)
Lemma build_message (self : ResponseBuilder) (msg : bytes) :
  build self now = Ok msg ->
  exists st,
    status self = Some st /\
    msg = message st (headers (build_headers self now)) (body_of (content self)).
Proof.
  unfold build, status_text. rewrite build_headers_status, build_headers_content.
  pose proof (build_headers_nonempty self) as Hne.
  pose proof (join_header_block Hne) as J.
  rewrite utf8_app, utf8_NEWLINE in J.
  destruct (status self) as [st | ];
    [ | destruct (content self); simpl; discriminate ].
  intro H. exists st. split; [reflexivity | ].
  destruct (content self) as [c | c]; cbn [bind] in H.
  - apply encode_ok in H. destruct H as [_ H]. subst msg.
    unfold message, body_of.
    repeat rewrite utf8_app. rewrite <- J, utf8_NEWLINE.
    repeat rewrite <- app_assoc. reflexivity.
  - apply bind_ok in H. destruct H as (hd & Hhd & H).
    apply encode_ok in Hhd. destruct Hhd as [_ Hhd].
    cbn in H. inversion H. subst msg hd.
    unfold message, body_of.
    repeat rewrite utf8_app. rewrite <- J, utf8_NEWLINE.
    repeat rewrite <- app_assoc. reflexivity.
Qed.

(** [build] returns as soon as the status is set and the text of the
    status line and of the headers can be encoded. *)
Lemma build_returns (self : ResponseBuilder) (st : str) :
  status self = Some st ->
  forallb is_scalar st = true ->
  forallb is_scalar (join NEWLINE (headers (build_headers self now))) = true ->
  (forall s, content self = VStr s -> forallb is_scalar s = true) ->
  build self now =
  Ok (message st (headers (build_headers self now)) (body_of (content self))).
Proof.
  intros Hst Hs Hh Hc.
  assert (exists msg, build self now = Ok msg) as [msg Hm].
  { unfold build, status_text.
    rewrite build_headers_status, build_headers_content, Hst.
    assert (Hn : forallb is_scalar NEWLINE = true) by reflexivity.
    destruct (content self) as [c | c] eqn:Ec; cbn [bind].
    - rewrite encode_scalar; [eexists; reflexivity | ].
      repeat rewrite scalar_lit_app. rewrite Hs, Hh, Hn, (Hc c eq_refl).
      reflexivity.
    - rewrite encode_scalar; [cbn; eexists; reflexivity | ].
      repeat rewrite scalar_lit_app. rewrite Hs, Hh, Hn. reflexivity. }
  rewrite Hm. destruct (build_message _ Hm) as (st' & Hst' & ->).
  congruence.
Qed.

End Builder.

(** A builder that the calls of a handler have produced holds the initial
    empty text or bytes. *)
Lemma run_content (cs : list call) (self0 self : ResponseBuilder) :
  content self0 = VStr [] \/ (exists b, content self0 = VBytes b) ->
  run cs self0 = Ok self ->
  content self = VStr [] \/ (exists b, content self = VBytes b).
Proof.
  revert self0. induction cs as [| c cs IH]; intros self0 H0 Hrun; simpl in Hrun.
  - inversion Hrun. subst. exact H0.
  - apply bind_ok in Hrun. destruct Hrun as (self1 & H1 & Hrun).
    apply (IH self1); [ | exact Hrun].
    destruct c as [k v | k m | v | t]; simpl in H1.
    + inversion H1. exact H0.
    + inversion H1. exact H0.
    + right. destruct v as [s | b]; simpl in H1.
      * apply bind_ok in H1. destruct H1 as (b & _ & H1).
        inversion H1. exists b. reflexivity.
      * inversion H1. exists b. reflexivity.
    + inversion H1. exact H0.
Qed.

(** For such a builder the length [build] writes is the length of the body. *)
Lemma built_length (self : ResponseBuilder) :
  content self = VStr [] \/ (exists b, content self = VBytes b) ->
  (if is_empty_str (content self) then 0 else len (content self))
  = List.length (body_of (content self)).
Proof.
  intros [H | [b H]]; rewrite H; reflexivity.
Qed.

Lemma skipn_length_app {A} (l r : list A) : skipn (List.length l) (l ++ r) = r.
Proof. induction l as [| a l IH]; simpl; [reflexivity | exact IH]. Qed.

(** The lines appended by [build] carry the colon twice: the key is passed
    with its own [": "] and [add_header] writes another. *)
Lemma appended_lines (self : ResponseBuilder) (now : str) :
  appended self now =
  [ lit "Date: : " ++ now;
    lit "Content-Type: : "
      ++ (if is_empty_str (content self) then lit "text/plain"
          else format_opt (content_type self));
    lit "Content-Length: : "
      ++ str_of_nat (if is_empty_str (content self) then 0 else len (content self));
    lit "Server: : Jacks HTTP server" ].
Proof.
  unfold appended. rewrite build_headers_lines. unfold response_headers.
  destruct (is_empty_str (content self)); rewrite skipn_length_app; reflexivity.
Qed.

(** Whether a handler has set the content decides what the builder holds. *)
Lemma run_set_content (cs : list call) (self0 self : ResponseBuilder) :
  run cs self0 = Ok self ->
  (is_empty_str (content self) = false <->
   is_empty_str (content self0) = false \/ exists c, In (SetContent c) cs)
  \/ (exists c, In (SetContent c) cs) /\ is_empty_str (content self) = false.
Proof.
  revert self0. induction cs as [| c cs IH]; intros self0 Hrun; simpl in Hrun.
  - inversion Hrun. subst. left. split.
    + intro H. left. exact H.
    + intros [H | [c [] ]]. exact H.
  - apply bind_ok in Hrun. destruct Hrun as (self1 & H1 & Hrun).
    destruct (IH self1 Hrun) as [Hiff | [[c' Hin] Hne]].
    + destruct c as [k v | k m | v | t]; simpl in H1.
      * inversion H1. subst self1. simpl in Hiff. left.
        rewrite Hiff. split.
        -- intros [H | [c' H]]; [left; exact H | right; exists c'; right; exact H].
        -- intros [H | [c' [H | H]]];
             [left; exact H | discriminate H | right; exists c'; exact H].
      * inversion H1. subst self1. simpl in Hiff. left.
        rewrite Hiff. split.
        -- intros [H | [c' H]]; [left; exact H | right; exists c'; right; exact H].
        -- intros [H | [c' [H | H]]];
             [left; exact H | discriminate H | right; exists c'; exact H].
      * right. split; [exists v; left; reflexivity | ].
        apply Hiff. left.
        destruct v as [s | b]; simpl in H1.
        -- apply bind_ok in H1. destruct H1 as (b & _ & H1).
           inversion H1. reflexivity.
        -- inversion H1. reflexivity.
      * inversion H1. subst self1. simpl in Hiff. left.
        rewrite Hiff. split.
        -- intros [H | [c' H]]; [left; exact H | right; exists c'; right; exact H].
        -- intros [H | [c' [H | H]]];
             [left; exact H | discriminate H | right; exists c'; exact H].
    + right. split; [exists c'; right; exact Hin | exact Hne].
Qed.

Lemma run_init_set_content (cs : list call) (self : ResponseBuilder) :
  run cs ResponseBuilder_init = Ok self ->
  (is_empty_str (content self) = false <-> exists c, In (SetContent c) cs).
Proof.
  intro Hrun. destruct (run_set_content _ _ Hrun) as [Hiff | [Hin Hne]].
  - rewrite Hiff. simpl. split.
    + intros [H | H]; [discriminate H | exact H].
    + intro H. right. exact H.
  - split; intro; assumption.
Qed.

(** C1.  For every response the builder produces, whatever status, headers
    and content (text or bytes) the handler has set, the number written in
    the Content-Length line is the exact number of bytes of the body that
    is placed in the message; the number is read back from its digits, and
    it is "0" when the body is empty. *)
Theorem content_length_exact (cs : list call) (self : ResponseBuilder)
        (now : str) (msg : bytes) :
  run cs ResponseBuilder_init = Ok self ->
  build self now = Ok msg ->
  exists st ctype,
    let body := body_of (content self) in
    msg = message st (response_headers (headers self) now ctype (List.length body))
                  body
    /\ int_of_str (str_of_nat (List.length body)) = Some (List.length body)
    /\ (body = [] -> str_of_nat (List.length body) = lit "0").
Proof.
  intros Hrun Hbuild.
  destruct (build_message _ _ Hbuild) as (st & Hst & Hmsg).
  assert (Hc : content self = VStr [] \/ (exists b, content self = VBytes b)).
  { apply (run_content cs ResponseBuilder_init); [left; reflexivity | exact Hrun]. }
  pose proof (built_length _ Hc) as Hlen.
  rewrite build_headers_lines in Hmsg.
  exists st.
  exists (if is_empty_str (content self) then lit "text/plain"
          else format_opt (content_type self)).
  cbv zeta. split; [ | split].
  - rewrite <- Hlen. rewrite Hmsg.
    destruct (is_empty_str (content self)); reflexivity.
  - apply int_of_str_of_nat.
  - intro Hb. rewrite Hb. reflexivity.
Qed.

Lemma content_length_exact_witness :
  exists st ctype,
    let body := body_of (content sample_builder) in
    sample_message
    = message st (response_headers (headers sample_builder) sample_now ctype
                                   (List.length body)) body
    /\ int_of_str (str_of_nat (List.length body)) = Some (List.length body)
    /\ (body = [] -> str_of_nat (List.length body) = lit "0").
Proof.
  apply (@content_length_exact sample_calls sample_builder sample_now);
    vm_compute; reflexivity.
Defined.

(** C8, as the code has it.  A built response with an empty body always
    carries Content-Length "0".  Its Content-Type is "text/plain" when no
    handler call has set the content; when the content has been set, even
    to an empty text or to no bytes, it is the content type of the builder
    (the text "None" when none was assigned). *)
Theorem empty_content_headers (cs : list call) (self : ResponseBuilder)
        (now : str) (msg : bytes) :
  run cs ResponseBuilder_init = Ok self ->
  build self now = Ok msg ->
  body_of (content self) = [] ->
  exists st,
    status self = Some st
    /\ str_of_nat 0 = lit "0"
    /\ ((forall c, ~ In (SetContent c) cs) ->
        msg = message st (response_headers (headers self) now (lit "text/plain") 0) [])
    /\ ((exists c, In (SetContent c) cs) ->
        msg = message st (response_headers (headers self) now
                                           (format_opt (content_type self)) 0) []).
Proof.
  intros Hrun Hbuild Hbody.
  destruct (build_message _ _ Hbuild) as (st & Hst & Hmsg).
  assert (Hc : content self = VStr [] \/ (exists b, content self = VBytes b)).
  { apply (run_content cs ResponseBuilder_init); [left; reflexivity | exact Hrun]. }
  pose proof (built_length _ Hc) as Hlen.
  pose proof (run_init_set_content _ Hrun) as Hset.
  rewrite build_headers_lines, Hbody in Hmsg. rewrite Hbody in Hlen. simpl in Hlen.
  exists st. split; [exact Hst | ]. split; [reflexivity | ]. split.
  - intro Hno. destruct (is_empty_str (content self)) eqn:E.
    + exact Hmsg.
    + exfalso. destruct Hset as [Hset _]. destruct (Hset eq_refl) as [c Hin].
      exact (Hno c Hin).
  - intro Hin. destruct Hset as [_ Hset]. rewrite (Hset Hin) in Hmsg, Hlen.
    rewrite Hlen in Hmsg. exact Hmsg.
Qed.

Lemma empty_content_headers_witness :
  exists st,
    status empty_builder = Some st
    /\ str_of_nat 0 = lit "0"
    /\ ((forall c, ~ In (SetContent c) empty_calls) ->
        empty_message "text/html"
        = message st (response_headers (headers empty_builder) sample_now
                                       (lit "text/plain") 0) [])
    /\ ((exists c, In (SetContent c) empty_calls) ->
        empty_message "text/html"
        = message st (response_headers (headers empty_builder) sample_now
                                       (format_opt (content_type empty_builder)) 0) []).
Proof.
  apply (@empty_content_headers empty_calls empty_builder sample_now);
    vm_compute; reflexivity.
Defined.

(** C8 fails as stated: a handler that sets an empty body and the content
    type text/html (the calls of [get_request] for an empty page) gets a
    response whose Content-Type is text/html, not text/plain. *)
Lemma empty_content_type_counterexample :
  run empty_calls ResponseBuilder_init = Ok empty_builder
  /\ body_of (content empty_builder) = []
  /\ build empty_builder sample_now = Ok (empty_message "text/html")
  /\ build empty_builder sample_now <> Ok (empty_message "text/plain")
  /\ get_request sample_fs sample_now (lit "empty.html") []
     = Ok (empty_message "text/html").
Proof.
  repeat split; try (vm_compute; reflexivity).
  vm_compute. discriminate.
Qed.

(** C9, at the response to a request of an unknown method.  The headers
    the handler adds have the form [Name: Value]; the four lines [build]
    appends have a second colon and space between the name and the value,
    so they are not of that form for their name and value. *)
Theorem build_header_lines_double_colon :
  method_not_allowed sample_now
  = Ok (message (lit "HTTP/1.1 405 METHOD NOT ALLOWED")
                [ header_line (lit "Allow") (lit "GET, POST");
                  header_line (lit "Connection") (lit "close");
                  lit "Date: : 2026-11-03 13:32:00.123456";
                  lit "Content-Type: : text/plain";
                  lit "Content-Length: : 0";
                  lit "Server: : Jacks HTTP server" ] [])
  /\ lit "Date: : 2026-11-03 13:32:00.123456"
     <> header_line (lit "Date") sample_now
  /\ lit "Content-Type: : text/plain"
     <> header_line (lit "Content-Type") (lit "text/plain")
  /\ lit "Content-Length: : 0"
     <> header_line (lit "Content-Length") (str_of_nat 0)
  /\ lit "Server: : Jacks HTTP server"
     <> header_line (lit "Server") (lit "Jacks HTTP server").
Proof.
  repeat split; try (vm_compute; reflexivity); vm_compute; discriminate.
Qed.

(** ** The handlers *)

Lemma scalar_lit (s : string) : forallb is_scalar (lit s) = true.
Proof.
  unfold lit. induction s as [| a s IH]; simpl; [reflexivity | ].
  rewrite IH, andb_true_r. unfold is_scalar.
  pose proof (N_ascii_bounded a) as Hb.
  apply orb_true_iff. left. apply N.ltb_lt. lia.
Qed.

Lemma scalar_str_of_nat (n : nat) : forallb is_scalar (str_of_nat n) = true.
Proof. apply scalar_lit. Qed.

Lemma scalar_join (sep : str) (l : list str) :
  forallb is_scalar sep = true ->
  forallb (forallb is_scalar) l = true ->
  forallb is_scalar (join sep l) = true.
Proof.
  intros Hsep. induction l as [| w ws IH]; intro H; [reflexivity | ].
  simpl in H. apply andb_true_iff in H. destruct H as [Hw Hws].
  destruct ws as [| v ws'].
  - exact Hw.
  - change (join sep (w :: v :: ws')) with (w ++ sep ++ join sep (v :: ws')).
    repeat rewrite scalar_lit_app. rewrite Hw, Hsep, (IH Hws). reflexivity.
Qed.

(** The response of a handler that has set a status, headers, a body and
    a content type. *)
Lemma build_bytes (now st : str) (hs : list str) (body : bytes) (ct : str) :
  forallb is_scalar st = true ->
  forallb (forallb is_scalar) hs = true ->
  forallb is_scalar now = true ->
  forallb is_scalar ct = true ->
  build {| headers := hs; status := Some st;
           content := VBytes body; content_type := Some ct |} now
  = Ok (message st (response_headers hs now ct (List.length body)) body).
Proof.
  intros Hst Hhs Hnow Hct.
  rewrite (@build_returns now _ st); try reflexivity; try exact Hst.
  - rewrite build_headers_lines. reflexivity.
  - rewrite build_headers_lines.
    cbn [content is_empty_str headers content_type format_opt len].
    apply scalar_join; [reflexivity | ].
    unfold response_headers. rewrite forallb_app.
    apply andb_true_iff. split; [exact Hhs | ].
    cbn [forallb]. repeat rewrite scalar_lit_app.
    rewrite Hnow, Hct, scalar_str_of_nat. reflexivity.
  - intros s H. discriminate H.
Qed.

(** The others-read bit of a mode is its bit 2. *)
Lemma others_read_bit (mode : N) :
  (0 <? N.land S_IROTH mode)%N = N.testbit mode 2.
Proof.
  assert (H4 : forall i, N.testbit S_IROTH i = N.eqb 2 i).
  { intro i. change S_IROTH with (2 ^ 2)%N. apply N.pow2_bits_eqb. }
  destruct (N.testbit mode 2) eqn:E.
  - apply N.ltb_lt. apply N.neq_0_lt_0. intro H0.
    assert (K : N.testbit (N.land S_IROTH mode) 2 = true).
    { rewrite N.land_spec, H4, E. reflexivity. }
    rewrite H0 in K. discriminate K.
  - apply N.ltb_ge. apply N.le_0_r. apply N.bits_inj_0. intro i.
    rewrite N.land_spec, H4. destruct (N.eqb_spec 2 i) as [<- | _].
    + rewrite E. reflexivity.
    + reflexivity.
Qed.

(** *** Text read from a file can be encoded again *)

Lemma emit_scalar (c : N) (k : result str) (s : str) :
  is_scalar c = true ->
  (forall s', k = Ok s' -> forallb is_scalar s' = true) ->
  emit c k = Ok s -> forallb is_scalar s = true.
Proof.
  intros Hc Hk H. unfold emit in H. apply bind_ok in H.
  destruct H as (s' & Hs' & H). inversion H. subst s. simpl.
  rewrite Hc, (Hk s' Hs'). reflexivity.
Qed.

Lemma bad_scalar (e : errors) (k : result str) (s : str) :
  (forall s', k = Ok s' -> forallb is_scalar s' = true) ->
  bad e k = Ok s -> forallb is_scalar s = true.
Proof.
  intros Hk H. destruct e; simpl in H; [discriminate H | ].
  apply bind_ok in H. destruct H as (s' & Hs' & H). inversion H. subst s.
  simpl. rewrite (Hk s' Hs'). reflexivity.
Qed.

Ltac bools :=
  repeat match goal with
         | H : (_ && _)%bool = true |- _ => apply andb_true_iff in H; destruct H
         | H : (_ || _)%bool = false |- _ => apply orb_false_iff in H; destruct H
         | H : (_ && _)%bool = false |- _ => apply andb_false_iff in H; destruct H
         | H : negb _ = true |- _ => apply negb_true_iff in H
         | H : (_ <? _)%N = true |- _ => apply N.ltb_lt in H
         | H : (_ <? _)%N = false |- _ => apply N.ltb_ge in H
         | H : (_ <=? _)%N = true |- _ => apply N.leb_le in H
         | H : (_ <=? _)%N = false |- _ => apply N.leb_gt in H
         | H : (_ =? _)%N = true |- _ => apply N.eqb_eq in H
         | H : (_ =? _)%N = false |- _ => apply N.eqb_neq in H
         end.

(** The decoder never yields a surrogate nor a code point above U+10FFFF. *)
Lemma decode_N_scalar (e : errors) (n : nat) :
  forall bs, List.length bs <= n ->
  forall s, decode_N e bs = Ok s -> forallb is_scalar s = true.
Proof.
  induction n as [| n IH]; intros bs Hlen s.
  - destruct bs; [ | simpl in Hlen; lia]. simpl. intro H. inversion H. reflexivity.
  - destruct bs as [| b0 r0]; [simpl; intro H; inversion H; reflexivity | ].
    simpl in Hlen. cbn [decode_N].
    destruct (b0 <? 0x80)%N eqn:C1.
    { apply emit_scalar; [ | apply IH; lia].
      unfold is_scalar. bools. apply orb_true_iff. left. apply N.ltb_lt. lia. }
    destruct ((b0 <? 0xC2) || (0xF4 <? b0))%N eqn:C2.
    { apply bad_scalar. apply IH. lia. }
    unfold second3, second4, cont.
    repeat match goal with
           | |- context [if ?c then _ else _] => destruct c eqn:?
           | |- context [match ?l with [] => _ | _ :: _ => _ end] =>
               destruct l as [| ? ?]; simpl in Hlen
           end;
      try (apply bad_scalar; first [ apply IH; simpl; lia
                                   | intros ? K; inversion K; reflexivity ]);
      (apply emit_scalar; [ | apply IH; simpl; lia ]);
      unfold is_scalar;
      match goal with
      | |- ((?c <? ?a) || (?b <? ?c) && (?c <? ?d))%N = true =>
          destruct (c <? a)%N eqn:E1; [reflexivity | ];
          destruct (b <? c)%N eqn:E2; destruct (c <? d)%N eqn:E3;
          try reflexivity; exfalso
      end; bools; lia.
Qed.

Lemma universal_newlines_scalar (n : nat) :
  forall s, List.length s <= n ->
  forallb is_scalar s = true -> forallb is_scalar (universal_newlines s) = true.
Proof.
  induction n as [| n IH]; intros s Hlen Hs.
  - destruct s; [reflexivity | simpl in Hlen; lia].
  - destruct s as [| c s']; [reflexivity | ].
    simpl in Hlen, Hs. apply andb_true_iff in Hs. destruct Hs as [Hc Hs'].
    cbn [universal_newlines]. destruct (c =? 13)%N.
    + destruct s' as [| d s'']; [reflexivity | ].
      simpl in Hlen, Hs'. destruct (d =? 10)%N.
      * apply andb_true_iff in Hs'. destruct Hs' as [_ Hs''].
        cbn [forallb]. rewrite IH; [reflexivity | lia | exact Hs''].
      * cbn [forallb]. rewrite IH; [reflexivity | simpl; lia | exact Hs'].
    + cbn [forallb]. rewrite Hc, IH; [reflexivity | lia | exact Hs'].
Qed.

Lemma read_text_scalar (fs : filesystem) (path text : str) :
  read_text fs path = Ok text -> forallb is_scalar text = true.
Proof.
  unfold read_text. intro H.
  apply bind_ok in H. destruct H as (b & _ & H).
  apply bind_ok in H. destruct H as (s & Hs & H).
  inversion H. subst text.
  apply (@universal_newlines_scalar (List.length s)); [lia | ].
  unfold decode in Hs.
  apply (@decode_N_scalar Strict (List.length (map Byte.to_N b))
                          (map Byte.to_N b)); [lia | exact Hs].
Qed.

Lemma resource_forbidden_response (fs : filesystem) (now text : str) :
  read_text fs (lit "./403.html") = Ok text ->
  forallb is_scalar now = true ->
  resource_forbidden fs now
  = Ok (message (lit "HTTP/1.1 403 RESOURCE FORBIDDEN")
                (response_headers [header_line (lit "Connection") (lit "close")]
                                  now (lit "text/html") (List.length (utf8 text)))
                (utf8 text)).
Proof.
  intros Hread Hnow. pose proof (read_text_scalar _ _ Hread) as Htext.
  unfold resource_forbidden.
  rewrite Hread. cbn [bind]. unfold set_content.
  rewrite (encode_scalar _ Htext). cbn [bind].
  apply build_bytes; try reflexivity; assumption.
Qed.

(** C6.  A GET of a path that exists and whose mode has the others-read
    bit clear is answered with status 403 RESOURCE FORBIDDEN, the text of
    [403.html] as body and the content type text/html; no other bit of
    the mode is looked at. *)
Theorem forbidden_without_others_read (fs : filesystem) (now target : str)
        (data : list str) (n : node) (text : str) :
  fs (lit "./" ++ target) = Some n ->
  N.testbit (st_mode n) 2 = false ->
  read_text fs (lit "./403.html") = Ok text ->
  forallb is_scalar now = true ->
  get_request fs now target data
  = Ok (message (lit "HTTP/1.1 403 RESOURCE FORBIDDEN")
                (response_headers [header_line (lit "Connection") (lit "close")]
                                  now (lit "text/html") (List.length (utf8 text)))
                (utf8 text)).
Proof.
  intros Hfs Hbit Hread Hnow. unfold get_request, exists_, has_permission_other.
  rewrite Hfs. cbn [negb bind]. rewrite others_read_bit, Hbit. cbn [negb].
  apply resource_forbidden_response; assumption.
Qed.

Lemma forbidden_without_others_read_witness :
  get_request sample_fs sample_now (lit "secret.html") []
  = Ok (message (lit "HTTP/1.1 403 RESOURCE FORBIDDEN")
                (response_headers [header_line (lit "Connection") (lit "close")]
                                  sample_now (lit "text/html")
                                  (List.length (utf8 (lit "<h1>forbidden</h1>"))))
                (utf8 (lit "<h1>forbidden</h1>"))).
Proof.
  apply (@forbidden_without_others_read sample_fs sample_now (lit "secret.html") []
           (regular rw_rw____ (utf8 (lit "<p>private</p>"))));
    vm_compute; reflexivity.
Defined.

(** *** GET: the extension of the path *)

Lemma getitem_cons {A} (a : A) (l : list A) (i : nat) :
  getitem (a :: l) (S i) = getitem l i.
Proof. reflexivity. Qed.

(** Index 2 of the resolved path is index 1 of the target: the prefix
    ["./"] brings one dot and an empty first piece. *)
Lemma file_extension_of_target (target : str) :
  file_extension_of (lit "./" ++ target) = getitem (split (lit ".") target) 1
  /\ file_extension_of (lit "./" ++ target)
     = getitem (split (lit ".") (lit "./" ++ target)) 2.
Proof.
  change (lit "./" ++ target) with (46%N :: 47%N :: target).
  change (lit ".") with [46%N].
  assert (E : file_extension_of (46%N :: 47%N :: target)
              = getitem (split [46%N] (46%N :: 47%N :: target)) 2) by reflexivity.
  split; [ | exact E].
  rewrite E, split1_sep, split1_other by discriminate.
  rewrite 2 getitem_cons.
  destruct (split_nonempty [46%N] target) as (w & ws & Es). rewrite Es.
  reflexivity.
Qed.

(** C4, as the code has it.  The extension [get_request] uses is index 2 of
    the resolved path cut at its dots, that is the second piece of the
    target.  It is the last piece, the true extension, when the target has
    exactly one dot (the resolved path then has two, one of them in the
    prefix).  A target without a dot raises IndexError, and for a target
    with two dots or more the piece taken lies before the last one. *)
Theorem extension_is_second_piece (target : str) :
  let path := lit "./" ++ target in
  let pieces := split (lit ".") target in
  file_extension_of path = getitem (split (lit ".") path) 2
  /\ file_extension_of path = getitem pieces 1
  /\ (dots target = 0 -> file_extension_of path = Raise IndexError)
  /\ (dots target = 1 -> file_extension_of path = Ok (last pieces []))
  /\ (2 <= dots target ->
      exists name ext rest,
        pieces = name :: ext :: rest /\ rest <> []
        /\ file_extension_of path = Ok ext).
Proof.
  cbv zeta. destruct (file_extension_of_target target) as [E1 E2].
  split; [exact E2 | ]. split; [exact E1 | ].
  rewrite E1. unfold dots.
  pose proof (split1_length 46%N target) as Hlen.
  change [46%N] with (lit ".") in Hlen.
  destruct (split (lit ".") target) as [| name [| ext [| r rest]]];
    simpl in Hlen; repeat split; intro Hd; try lia; try reflexivity.
  exists name, ext, (r :: rest). repeat split. discriminate.
Qed.

Lemma extension_is_second_piece_witness :
  let path := lit "./" ++ lit "index.html" in
  let pieces := split (lit ".") (lit "index.html") in
  file_extension_of path = getitem (split (lit ".") path) 2
  /\ file_extension_of path = getitem pieces 1
  /\ (dots (lit "index.html") = 0 -> file_extension_of path = Raise IndexError)
  /\ (dots (lit "index.html") = 1 -> file_extension_of path = Ok (last pieces []))
  /\ (2 <= dots (lit "index.html") ->
      exists name ext rest,
        pieces = name :: ext :: rest /\ rest <> []
        /\ file_extension_of path = Ok ext).
Proof.
  exact (extension_is_second_piece (lit "index.html")).
Defined.

(** C4 fails as stated when the dots are counted in the target: with two
    dots the piece taken is not the extension, with one dot it is, and
    with three it may be the same text as the extension. *)
Lemma extension_two_dots_counterexample :
  (dots (lit "a.b.c") = 2
   /\ file_extension_of (lit "./" ++ lit "a.b.c") = Ok (lit "b")
   /\ last (split (lit ".") (lit "a.b.c")) [] = lit "c"
   /\ lit "b" <> lit "c")
  /\ (dots (lit "index.html") = 1
      /\ file_extension_of (lit "./" ++ lit "index.html") = Ok (lit "html")
      /\ last (split (lit ".") (lit "index.html")) [] = lit "html")
  /\ (dots (lit "a.b.c.b") = 3
      /\ file_extension_of (lit "./" ++ lit "a.b.c.b") = Ok (lit "b")
      /\ last (split (lit ".") (lit "a.b.c.b")) [] = lit "b").
Proof.
  repeat split; try (vm_compute; reflexivity).
  vm_compute. discriminate.
Qed.

(** *** GET: the answer to a readable file *)

Lemma binary_extension (ext : str) :
  should_return_binary ext = true ->
  ext = lit "jpg" \/ ext = lit "jpeg" \/ ext = lit "png" \/ ext = lit "mp3".
Proof.
  unfold should_return_binary, binary_type_files. simpl.
  repeat rewrite orb_true_iff. repeat rewrite str_eqb_eq.
  intros [H | [H | [H | [H | H]]]]; auto. discriminate H.
Qed.

Lemma binary_mime (ext : str) :
  should_return_binary ext = true ->
  exists mime,
    get_file_mime_type (Some ext) = Ok mime /\ forallb is_scalar mime = true.
Proof.
  intro H. apply binary_extension in H.
  destruct H as [-> | [-> | [-> | ->]]];
    [ exists (lit "image/jpg") | exists (lit "image/jpeg")
    | exists (lit "image/png") | exists (lit "audio/mpeg") ];
    split; reflexivity.
Qed.

(** The answer of [get_request] once the file is read and its type found. *)
Lemma get_request_ok (fs : filesystem) (now target : str) (data : list str)
      (n : node) (ext mime : str) (v : value) (body : bytes) :
  fs (lit "./" ++ target) = Some n ->
  N.testbit (st_mode n) 2 = true ->
  file_extension_of (lit "./" ++ target) = Ok ext ->
  read_file fs (lit "./" ++ target) (should_return_binary ext) = Ok v ->
  (forall s, v = VStr s -> forallb is_scalar s = true) ->
  body = body_of v ->
  get_file_mime_type (Some ext) = Ok mime ->
  forallb is_scalar mime = true ->
  forallb is_scalar now = true ->
  get_request fs now target data
  = Ok (message (lit "HTTP/1.1 200 OK")
                (response_headers [header_line (lit "Connection") (lit "close")]
                                  now mime (List.length body))
                body).
Proof.
  intros Hfs Hbit Hext Hread Hv Hbody Hmime Hm Hnow.
  unfold get_request, exists_, has_permission_other.
  rewrite Hfs. cbn [negb bind]. rewrite others_read_bit, Hbit. cbn [negb].
  rewrite Hext. cbn [bind]. rewrite Hread. cbn [bind].
  rewrite Hmime. subst body.
  destruct v as [s | b]; unfold set_content.
  - rewrite (encode_scalar _ (Hv s eq_refl)). cbn [bind body_of].
    apply build_bytes; try reflexivity; assumption.
  - cbn [bind body_of]. apply build_bytes; try reflexivity; assumption.
Qed.


Lemma build_headers_appended (self : ResponseBuilder) (now : str) :
  headers (build_headers self now) = headers self ++ appended self now.
Proof.
  rewrite appended_lines, build_headers_lines. unfold response_headers.
  destruct (is_empty_str (content self)); reflexivity.
Qed.





(** A readable text file whose extension has no entry in the table is
    read, and the lookup of its type raises. *)
Lemma get_request_unknown_extension (fs : filesystem) (now target : str)
      (data : list str) (n : node) (ext text : str) (e : exn) :
  fs (lit "./" ++ target) = Some n ->
  N.testbit (st_mode n) 2 = true ->
  file_extension_of (lit "./" ++ target) = Ok ext ->
  read_text fs (lit "./" ++ target) = Ok text ->
  get_file_mime_type (Some ext) = Raise e ->
  get_request fs now target data = Raise e.
Proof.
  intros Hfs Hbit Hext Hread Hmime.
  assert (Hbin : should_return_binary ext = false).
  { destruct (should_return_binary ext) eqn:E; [ | reflexivity].
    destruct (binary_mime _ E) as (m & Hm & _). congruence. }
  unfold get_request, exists_, has_permission_other.
  rewrite Hfs. cbn [negb bind]. rewrite others_read_bit, Hbit. cbn [negb].
  rewrite Hext. cbn [bind]. rewrite Hbin. unfold read_file.
  rewrite Hread. cbn [bind]. unfold set_content.
  rewrite (encode_scalar _ (read_text_scalar _ _ Hread)). cbn [bind].
  rewrite Hmime. reflexivity.
Qed.

(** C2, at a readable text file whose extension the table lacks and at a
    readable file without extension: the first GET raises KeyError in
    [get_file_mime_type], the second IndexError at index 2 of the pieces
    of the path; neither returns a response of type text/plain. *)
Theorem unknown_extension_raises :
  get_request sample_fs sample_now (lit "notes.txt") []
  = Raise (KeyError (lit "txt"))
  /\ get_request sample_fs sample_now (lit "README") [] = Raise IndexError.
Proof.
  split; vm_compute; reflexivity.
Qed.

(** *** POST *)

Lemma formatString_field (k v : str) :
  ~ In 61%N k -> ~ In 61%N v ->
  formatString (k ++ lit "=" ++ v) = Ok (plus_to_space v).
Proof.
  intros Hk Hv. unfold formatString.
  change (lit "=") with [61%N].
  change (k ++ [61%N] ++ v) with (k ++ 61%N :: v).
  rewrite split1_piece by exact Hk. rewrite split1_whole by exact Hv.
  reflexivity.
Qed.

(** A field either has a value or raises IndexError, and it has a value
    only at an index of the list. *)
Lemma format_field_cases (l : list str) (i : nat) :
  (exists v, format_field l i = Ok v /\ i < List.length l)
  \/ format_field l i = Raise IndexError.
Proof.
  unfold format_field, getitem.
  destruct (nth_error l i) as [f | ] eqn:E; cbn [bind].
  - assert (Hi : i < List.length l).
    { apply nth_error_Some. rewrite E. discriminate. }
    unfold formatString, getitem.
    destruct (nth_error (split (lit "=") f) 1) as [e | ]; cbn [bind].
    + left. eexists. split; [reflexivity | exact Hi].
    + right. reflexivity.
  - right. reflexivity.
Qed.

Ltac next_field l i :=
  destruct (format_field_cases l i) as [(?v & -> & ?Hi) | ->];
  cbn [bind]; [ | reflexivity].

(** With fewer than eight fields the handler raises IndexError. *)
Lemma post_request_short (now rf : str) (data : list str) (line : str) :
  getlast data = Ok line ->
  List.length (form_fields line) < 8 ->
  post_request now rf data = Raise IndexError.
Proof.
  intros Hlast Hlen. unfold post_request. rewrite Hlast. cbn [bind].
  unfold form_fields in Hlen.
  set (l := split (lit "&") (unquote line)) in *.
  next_field l 0. next_field l 1. next_field l 2. next_field l 3.
  next_field l 4. next_field l 5. next_field l 6. next_field l 7.
  lia.
Qed.

Lemma html_page_rows (v0 v1 v2 v3 v4 v5 v6 v7 : str) :
  html_page v0 v1 v2 v3 v4 v5 v6 v7 = page [v0; v1; v2; v3; v4; v5; v6; v7].
Proof.
  unfold html_page, page, row, cell, line.
  unfold html_head, html_next_closed, html_next_open, html_tail.
  unfold page_open, page_close, line. cbn [nth].
  repeat rewrite <- app_assoc. reflexivity.
Qed.

Lemma split1_in (c : N) (s w : str) (x : N) :
  In w (split [c] s) -> In x w -> In x s.
Proof.
  revert w. induction s as [| d s IH]; intros w Hw Hx.
  - simpl in Hw. destruct Hw as [<- | []]. exact Hx.
  - destruct (N.eq_dec d c) as [-> | Hd].
    + rewrite split1_sep in Hw. destruct Hw as [<- | Hw].
      * destruct Hx.
      * right. exact (IH w Hw Hx).
    + rewrite split1_other in Hw by exact Hd.
      destruct (split_nonempty [c] s) as (u & us & Es). rewrite Es in *.
      simpl in Hw. destruct Hw as [<- | Hw].
      * destruct Hx as [<- | Hx]; [left; reflexivity | right].
        apply (IH u); [left; reflexivity | exact Hx].
      * right. apply (IH w); [right; exact Hw | exact Hx].
Qed.

Lemma scalar_plus_to_space (v : str) :
  forallb is_scalar v = true -> forallb is_scalar (plus_to_space v) = true.
Proof.
  intro Hv. unfold plus_to_space, replace. apply scalar_join; [reflexivity | ].
  apply forallb_forall. intros w Hw. apply forallb_forall. intros x Hx.
  rewrite forallb_forall in Hv. apply Hv.
  change (lit "+") with [43%N] in Hw. exact (split1_in _ _ _ _ Hw Hx).
Qed.

Lemma scalar_sp (n : nat) : forallb is_scalar (sp n) = true.
Proof. induction n as [| n IH]; [reflexivity | exact IH]. Qed.

Lemma scalar_line (n : nat) (s : string) : forallb is_scalar (line n s) = true.
Proof.
  unfold line. repeat rewrite scalar_lit_app.
  rewrite scalar_sp, scalar_lit. reflexivity.
Qed.

Lemma scalar_row (label : string) (v : str) :
  forallb is_scalar v = true -> forallb is_scalar (row label v) = true.
Proof.
  intro Hv. unfold row, cell. repeat rewrite scalar_lit_app.
  rewrite scalar_line, Hv. repeat rewrite scalar_sp. repeat rewrite scalar_lit.
  reflexivity.
Qed.

Lemma scalar_nth (vs : list str) (i : nat) :
  forallb (forallb is_scalar) vs = true ->
  forallb is_scalar (nth i vs []) = true.
Proof.
  revert i. induction vs as [| v vs IH]; intros i H.
  - destruct i; reflexivity.
  - simpl in H. apply andb_true_iff in H. destruct H as [Hv Hvs].
    destruct i; [exact Hv | exact (IH i Hvs)].
Qed.

Lemma scalar_page (vs : list str) :
  forallb (forallb is_scalar) vs = true -> forallb is_scalar (page vs) = true.
Proof.
  intro H. unfold page. repeat rewrite scalar_lit_app.
  repeat rewrite scalar_row by (apply scalar_nth; exact H).
  repeat rewrite scalar_line. reflexivity.
Qed.

Lemma scalar_map_plus (vs : list str) :
  forallb (forallb is_scalar) vs = true ->
  forallb (forallb is_scalar) (map plus_to_space vs) = true.
Proof.
  induction vs as [| v vs IH]; intro H; [reflexivity | ].
  simpl in H. apply andb_true_iff in H. destruct H as [Hv Hvs].
  simpl. rewrite (scalar_plus_to_space _ Hv). exact (IH Hvs).
Qed.

Ltac eight l :=
  do 8 (destruct l as [| ? l]; [discriminate | ]);
  destruct l; [ | discriminate].

Ltac split_forall :=
  repeat match goal with
         | H : Forall _ (_ :: _) |- _ => inversion H; clear H; subst
         | H : _ /\ _ |- _ => destruct H
         end.

Lemma no_amp_field (k v : str) :
  ~ In 38%N k -> ~ In 38%N v -> ~ In 38%N (k ++ lit "=" ++ v).
Proof.
  intros Hk Hv H. apply in_app_or in H. destruct H as [H | H]; [exact (Hk H) | ].
  destruct H as [H | H]; [discriminate H | exact (Hv H)].
Qed.

(** C3, as the code has it.  When the last line of a POST, URL-decoded as
    a whole, is [k1=v1&...&k8=v8], possibly followed by further fragments,
    and no key or value holds ['&'] or ['='] once decoded, the handler
    answers 200 with the content type text/html and the page whose rows
    pair the labels event, day, start, end, phone, location, info and url,
    in this order, with the values, every ['+'] of a value replaced by
    a space. *)
Theorem post_echoes_fields (now rf : str) (data : list str) (body : str)
        (ks vs more : list str) :
  getlast data = Ok body ->
  List.length ks = 8 ->
  List.length vs = 8 ->
  unquote body = join (lit "&") (fields ks vs ++ more) ->
  Forall (fun x => ~ In 38%N x /\ ~ In 61%N x) (ks ++ vs) ->
  Forall (fun x => ~ In 38%N x) more ->
  forallb (forallb is_scalar) vs = true ->
  forallb is_scalar now = true ->
  let html := page (map plus_to_space vs) in
  post_request now rf data
  = Ok (message (lit "HTTP/1.1 200 OK")
                (response_headers [header_line (lit "Connection") (lit "close")]
                                  now (lit "text/html") (List.length (utf8 html)))
                (utf8 html)).
Proof.
  intros Hlast Hks Hvs Hunq Hclean Hmore Hscalar Hnow html.
  assert (Hpage : forallb is_scalar html = true).
  { apply scalar_page. apply scalar_map_plus. exact Hscalar. }
  subst html.
  eight ks. eight vs. cbn [app] in Hclean. split_forall.
  unfold post_request. rewrite Hlast. cbn [bind]. rewrite Hunq.
  unfold fields. cbn [combine map fst snd app].
  change (lit "&") with [38%N].
  rewrite split1_join.
  2:{ repeat (apply Forall_cons; [apply no_amp_field; assumption | ]).
      exact Hmore. }
  unfold format_field. cbn [getitem nth_error bind].
  repeat (rewrite formatString_field by assumption; cbn [bind]).
  rewrite html_page_rows. unfold set_content.
  cbn [map] in Hpage |- *.
  rewrite (encode_scalar _ Hpage). cbn [bind].
  apply build_bytes; try reflexivity; assumption.
Qed.

Lemma post_echoes_fields_witness :
  let html := page (map plus_to_space sample_values) in
  post_request sample_now (lit "EventLog.html") sample_post
  = Ok (message (lit "HTTP/1.1 200 OK")
                (response_headers [header_line (lit "Connection") (lit "close")]
                                  sample_now (lit "text/html")
                                  (List.length (utf8 html)))
                (utf8 html)).
Proof.
  apply (@post_echoes_fields sample_now (lit "EventLog.html") sample_post
           sample_form sample_keys sample_values []);
    try (vm_compute; reflexivity);
    repeat (apply Forall_cons;
            [ try split; vm_compute; intuition discriminate | ]);
    apply Forall_nil.
Defined.

(** C3 fails as stated: a well-formed body of the eight fields whose
    [info] value holds an escaped ['&'] is decoded before it is cut, the
    eighth fragment has no ['='], and the handler raises IndexError. *)
Lemma escaped_ampersand_counterexample :
  unquote escaped_form
  = lit "event=a&day=b&start=c&end=d&phone=e&location=f&info=Tom&Jerry&url=h"
  /\ post_request sample_now (lit "EventLog.html") escaped_post
     = Raise IndexError.
Proof.
  split; vm_compute; reflexivity.
Qed.

(** ** Request processing *)

Lemma getlast_last {A} (l : list A) (d : A) :
  l <> [] -> getlast l = Ok (last l d).
Proof.
  intro Hne. destruct (exists_last Hne) as (l' & a & ->).
  unfold getlast. rewrite rev_unit, last_last. reflexivity.
Qed.

(** The lines of a request: there is always a first and a last one. *)
Lemma request_lines (request : str) :
  getitem (split NEWLINE (strip request)) 0 = Ok (request_line request)
  /\ getlast (split NEWLINE (strip request)) = Ok (body_line request).
Proof.
  unfold request_line, body_line.
  destruct (split_nonempty NEWLINE (strip request)) as (w & ws & E).
  rewrite E. split; [reflexivity | ].
  apply getlast_last. discriminate.
Qed.

(** A request whose processing raises gets nothing sent back. *)
Lemma accept_request_raise (fs : filesystem) (now request : str) (data : bytes)
      (e : exn) :
  process_response fs now request = Raise e ->
  decode Strict data = Ok request ->
  accept_request fs now data = None.
Proof.
  intros Hp Hd. unfold accept_request. rewrite Hd. cbn [bind]. rewrite Hp.
  reflexivity.
Qed.

(** C7, as the code has it.  A POST whose body line decodes to fewer than
    eight fields makes the handler raise IndexError, the error of an index
    out of range; the error leaves [process_response] and nothing is sent
    back, neither a 400-class response nor any other. *)
Theorem short_form_raises (fs : filesystem) (now request target : str)
        (rest : list str) :
  split_ws (request_line request) = lit "POST" :: target :: rest ->
  List.length (form_fields (body_line request)) < 8 ->
  post_request now (slice_from1 target) (split NEWLINE (strip request))
  = Raise IndexError
  /\ process_response fs now request = Raise IndexError
  /\ (forall data, decode Strict data = Ok request ->
                   accept_request fs now data = None).
Proof.
  intros Hwords Hlen.
  destruct (request_lines request) as [Hfirst Hlast].
  pose proof (post_request_short now (slice_from1 target) _ Hlast Hlen) as Hpost.
  assert (Hp : process_response fs now request = Raise IndexError).
  { unfold process_response. rewrite Hfirst. cbn [bind]. rewrite Hwords.
    cbn [List.length Nat.eqb getitem nth_error bind].
    change (str_eqb (lit "POST") (lit "GET")) with false.
    change (str_eqb (lit "POST") (lit "POST")) with true.
    cbv iota. rewrite Hpost. reflexivity. }
  split; [exact Hpost | ]. split; [exact Hp | ].
  intros data Hd. exact (accept_request_raise _ _ _ Hp Hd).
Qed.

Lemma short_form_raises_witness :
  post_request sample_now (slice_from1 (lit "/EventLog.html"))
               (split NEWLINE (strip short_request))
  = Raise IndexError
  /\ process_response sample_fs sample_now short_request = Raise IndexError
  /\ (forall data, decode Strict data = Ok short_request ->
                   accept_request sample_fs sample_now data = None).
Proof.
  apply (@short_form_raises sample_fs sample_now short_request
           (lit "/EventLog.html") [lit "HTTP/1.1"]).
  - vm_compute. reflexivity.
  - vm_compute. lia.
Defined.

(** C7 fails as stated: for a POST of two fields the handler does not
    fail with an error of its own that is answered by a 400-class
    response; it raises IndexError and nothing is sent. *)
Lemma short_form_counterexample :
  List.length (form_fields (body_line short_request)) = 2
  /\ process_response sample_fs sample_now short_request = Raise IndexError
  /\ accept_request sample_fs sample_now (utf8 short_request) = None.
Proof.
  repeat split; vm_compute; reflexivity.
Qed.

(** C10.  A request whose first line has exactly one word makes
    [process_response] raise IndexError at the word of index 1, before
    the method is looked at: no response is returned and nothing is
    sent, while a first line without any word is answered by the guard
    with no response and no error. *)
Theorem one_word_request_raises (fs : filesystem) (now request : str) :
  (List.length (split_ws (request_line request)) = 1 ->
   process_response fs now request = Raise IndexError
   /\ forall data, decode Strict data = Ok request ->
                   accept_request fs now data = None)
  /\ (List.length (split_ws (request_line request)) = 0 ->
      process_response fs now request = Ok None).
Proof.
  destruct (request_lines request) as [Hfirst _].
  split; intro Hlen.
  - assert (Hp : process_response fs now request = Raise IndexError).
    { unfold process_response. rewrite Hfirst. cbn [bind].
      destruct (split_ws (request_line request)) as [| w [| w' ws]];
        try discriminate Hlen.
      reflexivity. }
    split; [exact Hp | ].
    intros data Hd. exact (accept_request_raise _ _ _ Hp Hd).
  - unfold process_response. rewrite Hfirst. cbn [bind]. rewrite Hlen.
    reflexivity.
Qed.

Lemma one_word_request_raises_witness :
  process_response sample_fs sample_now one_word_request = Raise IndexError
  /\ forall data, decode Strict data = Ok one_word_request ->
                  accept_request sample_fs sample_now data = None.
Proof.
  apply (proj1 (one_word_request_raises sample_fs sample_now one_word_request)).
  vm_compute. reflexivity.
Defined.

(** ** The UTF-8 codec, both ways *)

Ltac div_lia := zify; Z.to_euclidean_division_equations; lia.

Lemma to_N_byte_of_N (n : N) : (n < 256)%N -> Byte.to_N (byte_of_N n) = n.
Proof.
  intro H. unfold byte_of_N. rewrite N.mod_small by exact H.
  destruct (Byte.of_N n) as [b | ] eqn:E.
  - exact (Byte.to_of_N _ E).
  - pose proof (Byte.to_of_N_option_map n) as K. rewrite E in K. simpl in K.
    destruct (N.leb_spec n 255); [discriminate K | lia].
Qed.

Lemma to_N_inj (a b : byte) : Byte.to_N a = Byte.to_N b -> a = b.
Proof.
  intro H. pose proof (Byte.of_to_N a) as Ha. rewrite H, Byte.of_to_N in Ha.
  congruence.
Qed.

Lemma map_to_N_inj (a b : bytes) : map Byte.to_N a = map Byte.to_N b -> a = b.
Proof.
  revert b. induction a as [| x a IH]; intros [| y b] H; try discriminate H.
  - reflexivity.
  - simpl in H. inversion H as [[Hx Ha]]. f_equal; [exact (to_N_inj _ _ Hx) | exact (IH b Ha)].
Qed.

Lemma emit_ok (c : N) (k : result str) (s : str) :
  emit c k = Ok s -> exists s', k = Ok s' /\ s = c :: s'.
Proof.
  unfold emit. intro H. apply bind_ok in H. destruct H as (s' & Hk & H).
  inversion H. exists s'. split; [exact Hk | reflexivity].
Qed.

Lemma utf8_cons (c : N) (s : str) : utf8 (c :: s) = utf8_char c ++ utf8 s.
Proof. reflexivity. Qed.

(** What is decoded strictly encodes to the bytes it came from. *)
Lemma decode_N_utf8 (n : nat) :
  forall bs, List.length bs <= n ->
  forall s, decode_N Strict bs = Ok s -> map Byte.to_N (utf8 s) = bs.
Proof.
  induction n as [| n IH]; intros bs Hlen s.
  - destruct bs; [ | simpl in Hlen; lia]. simpl. intro H. inversion H. reflexivity.
  - destruct bs as [| b0 r0]; [simpl; intro H; inversion H; reflexivity | ].
    simpl in Hlen. cbn [decode_N].
    unfold second3, second4, cont.
    repeat match goal with
           | |- context [if ?c then _ else _] => destruct c eqn:?
           | |- context [match ?l with [] => _ | _ :: _ => _ end] =>
               destruct l as [| ? ?]; simpl in Hlen
           end;
      try (simpl; discriminate);
      intro H; apply emit_ok in H; destruct H as (s' & Hs' & ->);
      (apply IH in Hs'; [ | simpl; lia]);
      rewrite utf8_cons, map_app, Hs'; bools; unfold utf8_char.
    all: repeat match goal with
                | |- context [if ?t then _ else _] =>
                    destruct t eqn:?; bools; try (exfalso; lia)
                end.
    all: cbn [map app]; repeat rewrite to_N_byte_of_N by div_lia.
    all: repeat (f_equal; try div_lia).
Qed.

(** The bytes of an encodable character decode to it. *)
Ltac name_digits c :=
  replace (c / 262144)%N with (c / 64 / 64 / 64)%N
    by (repeat rewrite N.Div0.div_div; reflexivity);
  replace (c / 4096)%N with (c / 64 / 64)%N
    by (rewrite N.Div0.div_div; reflexivity);
  pose proof (N.div_mod' c 64); pose proof (N.mod_lt c 64 ltac:(lia));
  pose proof (N.div_mod' (c / 64) 64);
  pose proof (N.mod_lt (c / 64) 64 ltac:(lia));
  pose proof (N.div_mod' (c / 64 / 64) 64);
  pose proof (N.mod_lt (c / 64 / 64) 64 ltac:(lia));
  generalize dependent ((c / 64 / 64) mod 64)%N;
  generalize dependent (c / 64 / 64 / 64)%N;
  generalize dependent ((c / 64) mod 64)%N;
  generalize dependent (c / 64 / 64)%N;
  generalize dependent (c mod 64)%N;
  generalize dependent (c / 64)%N; intros.

Ltac cases_of_tests :=
  repeat (bools;
          match goal with
          | H : (_ || _)%bool = true |- _ => apply orb_true_iff in H; destruct H
          | H : negb _ = false |- _ => apply negb_false_iff in H
          end);
  bools.

Lemma decode_N_utf8_char (e : errors) (c : N) (rest : list N) :
  is_scalar c = true ->
  decode_N e (map Byte.to_N (utf8_char c) ++ rest) = emit c (decode_N e rest).
Proof.
  unfold is_scalar, utf8_char. intro Hc.
  apply orb_true_iff in Hc. destruct Hc as [Hc | Hc]; bools; name_digits c.
  all: repeat match goal with
              | |- context [if ?t then _ else _] => destruct t eqn:?
              end;
    bools; try (exfalso; lia);
    cbn [map app]; repeat rewrite to_N_byte_of_N by lia;
    cbn [decode_N]; unfold second3, second4, cont.
  all: repeat match goal with
              | |- context [if ?t then _ else _] =>
                  destruct t eqn:?; cases_of_tests; try (exfalso; lia)
              end.
  all: f_equal; lia.
Qed.

(** [data.decode("utf-8")] undoes [s.encode("utf-8")]. *)
Lemma decode_utf8 (s : str) :
  forallb is_scalar s = true -> decode Strict (utf8 s) = Ok s.
Proof.
  unfold decode. induction s as [| c s IH]; intro H; [reflexivity | ].
  simpl in H. apply andb_true_iff in H. destruct H as [Hc Hs].
  rewrite utf8_cons, map_app, decode_N_utf8_char by exact Hc.
  rewrite (IH Hs). reflexivity.
Qed.

(** [s.encode("utf-8")] undoes a strict [b.decode("utf-8")]. *)
Lemma utf8_decode (b : bytes) (s : str) :
  decode Strict b = Ok s -> utf8 s = b.
Proof.
  unfold decode. intro H. apply map_to_N_inj.
  apply (@decode_N_utf8 (List.length (map Byte.to_N b))); [lia | exact H].
Qed.

(** ** The tables *)

Lemma dict_get_ok (d : list (str * str)) (k v : str) :
  dict_get d k = Ok v -> In (k, v) d.
Proof.
  induction d as [| [k' v'] d IH]; simpl; intro H; [discriminate H | ].
  destruct (str_eqb k k') eqn:E.
  - apply str_eqb_eq in E. inversion H. subst. left. reflexivity.
  - right. exact (IH H).
Qed.

Lemma dict_get_present (d : list (str * str)) (k : str) :
  In k (map fst d) -> exists v, dict_get d k = Ok v.
Proof.
  induction d as [| [k' v'] d IH]; simpl; intro H; [destruct H | ].
  destruct (str_eqb k k') eqn:E.
  - exists v'. reflexivity.
  - destruct H as [H | H]; [ | exact (IH H)].
    subst k'. rewrite str_eqb_refl in E. discriminate E.
Qed.

Lemma dict_get_missing (d : list (str * str)) (k : str) :
  ~ In k (map fst d) -> dict_get d k = Raise (KeyError k).
Proof.
  induction d as [| [k' v'] d IH]; simpl; intro H; [reflexivity | ].
  destruct (str_eqb k k') eqn:E.
  - apply str_eqb_eq in E. exfalso. apply H. left. symmetry. exact E.
  - apply IH. intro K. apply H. right. exact K.
Qed.

(** X1.  For an extension given as a string, [get_file_mime_type] returns
    the entry of the table when the extension is one of its keys and
    raises KeyError with the extension otherwise; the type it returns is
    never text/plain, the default being kept for [None]. *)
Theorem mime_type_lookup (ext : str) :
  (In ext (map fst mime_types) ->
   exists mime,
     get_file_mime_type (Some ext) = Ok mime
     /\ In (ext, mime) mime_types
     /\ mime <> lit "text/plain")
  /\ (~ In ext (map fst mime_types) ->
      get_file_mime_type (Some ext) = Raise (KeyError ext)).
Proof.
  split; intro H.
  - destruct (dict_get_present mime_types ext H) as [mime Hm].
    exists mime. split; [exact Hm | ].
    pose proof (dict_get_ok _ _ Hm) as Hin. split; [exact Hin | ].
    simpl in Hin. intro E. subst mime.
    repeat (destruct Hin as [Hin | Hin]; [inversion Hin; discriminate | ]).
    destruct Hin.
  - exact (dict_get_missing _ _ H).
Qed.

Lemma mime_type_lookup_witness :
  get_file_mime_type (Some (lit "txt")) = Raise (KeyError (lit "txt")).
Proof.
  apply (proj2 (mime_type_lookup (lit "txt"))).
  vm_compute. intuition discriminate.
Defined.

(** X2.  Every extension that is read in binary mode has an entry in the
    table of types: the lookup of its type does not raise. *)
Theorem binary_extension_has_type (ext : str) :
  should_return_binary ext = true ->
  exists mime, get_file_mime_type (Some ext) = Ok mime.
Proof.
  intro H. destruct (binary_mime _ H) as (mime & Hm & _).
  exists mime. exact Hm.
Qed.

Lemma binary_extension_has_type_witness :
  exists mime, get_file_mime_type (Some (lit "mp3")) = Ok mime.
Proof.
  apply (@binary_extension_has_type (lit "mp3")). reflexivity.
Defined.

(** ** The builder, call by call *)

Lemma apply_call_headers (self self' : ResponseBuilder) (c : call) :
  apply_call self c = Ok self' ->
  headers self' = headers self ++ header_lines_of [c].
Proof.
  destruct c as [k v | k m | v | t]; simpl; intro H.
  - inversion H. reflexivity.
  - inversion H. simpl. rewrite app_nil_r. reflexivity.
  - rewrite app_nil_r. destruct v as [s | b]; simpl in H.
    + apply bind_ok in H. destruct H as (b & _ & H). inversion H. reflexivity.
    + inversion H. reflexivity.
  - inversion H. simpl. rewrite app_nil_r. reflexivity.
Qed.

(** X3.  The headers of a builder are the lines of the [add_header] calls
    made on it, in the order of the calls: no call removes, replaces or
    merges a line, a repeated header is kept twice. *)
Theorem headers_keep_call_order (cs : list call) (self0 self : ResponseBuilder) :
  run cs self0 = Ok self ->
  headers self = headers self0 ++ header_lines_of cs.
Proof.
  revert self0. induction cs as [| c cs IH]; intros self0 H; simpl in H.
  - inversion H. simpl. rewrite app_nil_r. reflexivity.
  - apply bind_ok in H. destruct H as (self1 & H1 & H).
    rewrite (IH _ H), (apply_call_headers _ _ H1).
    rewrite <- app_assoc. unfold header_lines_of. simpl.
    rewrite app_nil_r. reflexivity.
Qed.

Lemma headers_keep_call_order_witness :
  headers cookie_builder
  = headers ResponseBuilder_init ++ header_lines_of cookie_calls.
Proof.
  apply (@headers_keep_call_order cookie_calls ResponseBuilder_init cookie_builder).
  reflexivity.
Defined.

Lemma run_status (cs : list call) (self0 self : ResponseBuilder) :
  run cs self0 = Ok self ->
  if existsb sets_status cs
  then exists st, status self = Some st
  else status self = status self0.
Proof.
  revert self0. induction cs as [| c cs IH]; intros self0 H; simpl in H.
  - inversion H. reflexivity.
  - apply bind_ok in H. destruct H as (self1 & H1 & H).
    pose proof (IH _ H) as K. simpl.
    destruct c as [k v | k m | v | t]; simpl in *.
    + inversion H1. subst self1. exact K.
    + inversion H1. subst self1.
      destruct (existsb sets_status cs); [exact K | ].
      simpl in K. eexists. exact K.
    + destruct v as [s | b]; simpl in H1.
      * apply bind_ok in H1. destruct H1 as (b & _ & H1). inversion H1.
        subst self1. exact K.
      * inversion H1. subst self1. exact K.
    + inversion H1. subst self1. exact K.
Qed.

(** X4.  [build] on a builder whose status was never set raises TypeError,
    whatever headers and content it holds. *)
Theorem build_without_status (cs : list call) (self : ResponseBuilder) (now : str) :
  run cs ResponseBuilder_init = Ok self ->
  existsb sets_status cs = false ->
  build self now = Raise TypeError.
Proof.
  intros Hrun Hno. pose proof (run_status _ _ Hrun) as K.
  rewrite Hno in K. simpl in K.
  unfold build, status_text. rewrite build_headers_status, build_headers_content, K.
  destruct (content self); reflexivity.
Qed.

Lemma build_without_status_witness :
  build statusless_builder sample_now = Raise TypeError.
Proof.
  apply (@build_without_status statusless_calls); reflexivity.
Defined.

Lemma apply_call_encodable (self self' : ResponseBuilder) (c : call) :
  apply_call self c = Ok self' ->
  call_encodable c = true ->
  encodable_builder self -> encodable_builder self'.
Proof.
  intros H Hc (Hh & Hs & Ht & Hv). unfold encodable_builder.
  destruct c as [k v | k m | v | t]; simpl in H, Hc.
  - inversion H. subst self'. apply andb_true_iff in Hc.
    destruct Hc as [Hk Hval].
    cbn [add_header headers status content content_type].
    repeat split; try assumption.
    rewrite forallb_app. apply andb_true_iff. split; [exact Hh | ].
    cbn [forallb]. repeat rewrite scalar_lit_app.
    rewrite Hk, Hval, scalar_lit. reflexivity.
  - inversion H. subst self'. apply andb_true_iff in Hc.
    destruct Hc as [Hk Hm].
    cbn [set_status headers status content content_type].
    repeat split; try assumption.
    intros st E.
    assert (Est : st = lit "HTTP/1.1 " ++ k ++ lit " " ++ m) by congruence.
    rewrite Est. repeat rewrite scalar_lit_app.
    rewrite Hk, Hm. repeat rewrite scalar_lit. reflexivity.
  - assert (Hb : exists b, self' = with_content self (VBytes b)).
    { destruct v as [s | b]; simpl in H.
      - apply bind_ok in H. destruct H as (b & _ & H). inversion H.
        exists b. reflexivity.
      - inversion H. exists b. reflexivity. }
    destruct Hb as [b ->]. simpl. repeat split; try assumption.
    intros s E. discriminate E.
  - inversion H. subst self'. simpl. repeat split; try assumption.
    destruct t as [t | ]; [exact Hc | reflexivity].
Qed.

Lemma run_encodable (cs : list call) (self0 self : ResponseBuilder) :
  run cs self0 = Ok self ->
  forallb call_encodable cs = true ->
  encodable_builder self0 -> encodable_builder self.
Proof.
  revert self0. induction cs as [| c cs IH]; intros self0 H Hcs H0; simpl in H.
  - inversion H. subst. exact H0.
  - apply bind_ok in H. destruct H as (self1 & H1 & H).
    simpl in Hcs. apply andb_true_iff in Hcs. destruct Hcs as [Hc Hcs].
    apply (IH self1 H Hcs). eapply apply_call_encodable; eassumption.
Qed.

Lemma init_encodable : encodable_builder ResponseBuilder_init.
Proof.
  unfold encodable_builder. simpl. repeat split; try reflexivity.
  - intros st E. discriminate E.
  - intros s E. inversion E. reflexivity.
Qed.

(** X5.  [build] returns a response, the status line, the headers of the
    handler, its own four lines and the body, as soon as one call has set
    the status and the text of the calls and of the clock can be encoded:
    no content and no content type is needed. *)
Theorem build_with_status_returns (cs : list call) (self : ResponseBuilder)
        (now : str) :
  run cs ResponseBuilder_init = Ok self ->
  forallb call_encodable cs = true ->
  existsb sets_status cs = true ->
  forallb is_scalar now = true ->
  exists st,
    status self = Some st
    /\ build self now
       = Ok (message st (headers self ++ appended self now)
                     (body_of (content self))).
Proof.
  intros Hrun Hcs Hst Hnow.
  pose proof (run_status _ _ Hrun) as K. rewrite Hst in K. destruct K as [st K].
  destruct (run_encodable _ Hrun Hcs init_encodable) as (Hh & Hs & Ht & Hv).
  exists st. split; [exact K | ].
  rewrite <- build_headers_appended.
  apply build_returns; try assumption.
  - exact (Hs st K).
  - apply scalar_join; [reflexivity | ].
    rewrite build_headers_lines. unfold response_headers.
    destruct (is_empty_str (content self)); rewrite forallb_app;
      apply andb_true_iff; (split; [exact Hh | ]);
      cbn [forallb]; repeat rewrite scalar_lit_app;
      rewrite Hnow, scalar_str_of_nat; try rewrite Ht; reflexivity.
Qed.

Lemma build_with_status_returns_witness :
  exists st,
    status cookie_builder = Some st
    /\ build cookie_builder sample_now
       = Ok (message st (headers cookie_builder ++ appended cookie_builder sample_now)
                     (body_of (content cookie_builder))).
Proof.
  apply (@build_with_status_returns cookie_calls cookie_builder sample_now);
    reflexivity.
Defined.

Lemma build_headers_content_type (self : ResponseBuilder) (now : str) :
  content_type (build_headers self now) = content_type self.
Proof. unfold build_headers. simpl. destruct (is_empty_str (content self)); reflexivity. Qed.

Lemma appended_after_build (self : ResponseBuilder) (now1 now2 : str) :
  appended (build_headers self now1) now2 = appended self now2.
Proof.
  rewrite (appended_lines (build_headers self now1) now2).
  rewrite (appended_lines self now2).
  rewrite build_headers_content, build_headers_content_type. reflexivity.
Qed.

(** X6.  [build] is not idempotent: it appends its four lines to the
    headers of the builder, so a second [build] on the same builder
    returns a response that carries the Date, Content-Type,
    Content-Length and Server lines twice, the first Date being the
    time of the first call. *)
Theorem build_twice_repeats_lines (self : ResponseBuilder) (now1 now2 : str)
        (first second : bytes) :
  build self now1 = Ok first ->
  build_again self now1 now2 = Ok second ->
  exists st,
    first = message st (headers self ++ appended self now1)
                    (body_of (content self))
    /\ second = message st (headers self ++ appended self now1 ++ appended self now2)
                        (body_of (content self)).
Proof.
  intros H1 H2. unfold build_again in H2.
  destruct (build_message _ _ H1) as (st & Hst & E1).
  destruct (build_message _ _ H2) as (st' & Hst' & E2).
  rewrite build_headers_status in Hst'.
  assert (st' = st) by congruence. subst st'.
  exists st. split.
  - rewrite E1, build_headers_appended. reflexivity.
  - rewrite E2, build_headers_content.
    rewrite (build_headers_appended (build_headers self now1) now2).
    rewrite (build_headers_appended self now1).
    rewrite appended_after_build, <- app_assoc. reflexivity.
Qed.

Lemma build_twice_repeats_lines_witness :
  exists st,
    sample_message
    = message st (headers sample_builder ++ appended sample_builder sample_now)
              (body_of (content sample_builder))
    /\ message (lit "HTTP/1.1 200 OK")
               (headers sample_builder ++ appended sample_builder sample_now
                ++ appended sample_builder later)
               (utf8 sample_text)
       = message st (headers sample_builder ++ appended sample_builder sample_now
                     ++ appended sample_builder later)
                 (body_of (content sample_builder)).
Proof.
  apply (@build_twice_repeats_lines sample_builder sample_now later);
    vm_compute; reflexivity.
Defined.

Lemma run_content_type (cs : list call) (self0 self : ResponseBuilder) :
  run cs self0 = Ok self ->
  existsb sets_content_type cs = false ->
  content_type self = content_type self0.
Proof.
  revert self0. induction cs as [| c cs IH]; intros self0 H Hno; simpl in H.
  - inversion H. reflexivity.
  - apply bind_ok in H. destruct H as (self1 & H1 & H).
    simpl in Hno. apply orb_false_iff in Hno. destruct Hno as [Hc Hno].
    rewrite (IH _ H Hno).
    destruct c as [k v | k m | v | t]; simpl in H1, Hc.
    + inversion H1. reflexivity.
    + inversion H1. reflexivity.
    + destruct v as [s | b]; simpl in H1.
      * apply bind_ok in H1. destruct H1 as (b & _ & H1). inversion H1. reflexivity.
      * inversion H1. reflexivity.
    + discriminate Hc.
Qed.

(** X7.  When a handler sets a content and never assigns a content type,
    the response built carries the Content-Type value [None], the way an
    f-string writes the missing value. *)
Theorem content_type_none (cs : list call) (self : ResponseBuilder)
        (now : str) (msg : bytes) :
  run cs ResponseBuilder_init = Ok self ->
  existsb sets_content cs = true ->
  existsb sets_content_type cs = false ->
  build self now = Ok msg ->
  exists st,
    msg = message st
                  (response_headers (headers self) now (lit "None")
                                    (List.length (body_of (content self))))
                  (body_of (content self)).
Proof.
  intros Hrun Hset Hno Hbuild.
  destruct (build_message _ _ Hbuild) as (st & Hst & Hmsg).
  exists st. rewrite Hmsg, build_headers_lines.
  assert (He : is_empty_str (content self) = false).
  { apply (run_init_set_content _ Hrun).
    apply existsb_exists in Hset. destruct Hset as (c & Hin & Hc).
    destruct c; try discriminate Hc. eexists. exact Hin. }
  rewrite He, (run_content_type _ _ Hrun Hno).
  assert (Hc : content self = VStr [] \/ (exists b, content self = VBytes b)).
  { apply (run_content cs ResponseBuilder_init); [left; reflexivity | exact Hrun]. }
  pose proof (built_length _ Hc) as Hlen. rewrite He in Hlen. rewrite Hlen.
  reflexivity.
Qed.

Lemma content_type_none_witness :
  exists st,
    message (lit "HTTP/1.1 200 OK")
            [ lit "Date: : 2026-11-03 13:32:00.123456";
              lit "Content-Type: : None";
              lit "Content-Length: : 2";
              lit "Server: : Jacks HTTP server" ]
            (utf8 (lit "hi"))
    = message st
              (response_headers (headers untyped_builder) sample_now (lit "None")
                                (List.length (body_of (content untyped_builder))))
              (body_of (content untyped_builder)).
Proof.
  apply (@content_type_none untyped_calls untyped_builder sample_now);
    vm_compute; reflexivity.
Defined.

(** ** More of the handlers *)

(** The response of a handler that has set a status and headers, and no
    content. *)
Lemma build_empty (now st : str) (hs : list str) (ct : option str) :
  forallb is_scalar st = true ->
  forallb (forallb is_scalar) hs = true ->
  forallb is_scalar now = true ->
  build {| headers := hs; status := Some st;
           content := VStr []; content_type := ct |} now
  = Ok (message st (response_headers hs now (lit "text/plain") 0) []).
Proof.
  intros Hst Hhs Hnow.
  rewrite (@build_returns now _ st); try reflexivity; try exact Hst.
  - rewrite build_headers_lines. reflexivity.
  - rewrite build_headers_lines.
    cbn [content is_empty_str headers].
    apply scalar_join; [reflexivity | ].
    unfold response_headers. rewrite forallb_app.
    apply andb_true_iff. split; [exact Hhs | ].
    cbn [forallb]. repeat rewrite scalar_lit_app.
    rewrite Hnow, scalar_str_of_nat. reflexivity.
  - intros s H. inversion H. reflexivity.
Qed.

Lemma method_not_allowed_response (now : str) :
  forallb is_scalar now = true ->
  method_not_allowed now
  = Ok (message (lit "HTTP/1.1 405 METHOD NOT ALLOWED")
                (response_headers [ header_line (lit "Allow") (lit "GET, POST");
                                    header_line (lit "Connection") (lit "close") ]
                                  now (lit "text/plain") 0)
                []).
Proof.
  intro Hnow. unfold method_not_allowed.
  apply build_empty; try reflexivity; exact Hnow.
Qed.

(** The first line of a request that has a method and a target. *)
Lemma process_response_words (fs : filesystem) (now request method target : str)
      (rest : list str) :
  split_ws (request_line request) = method :: target :: rest ->
  process_response fs now request
  = if str_eqb method (lit "GET") then
      r <- get_request fs now (slice_from1 target)
                       (split NEWLINE (strip request)) ;; Ok (Some r)
    else if str_eqb method (lit "POST") then
      r <- post_request now (slice_from1 target)
                        (split NEWLINE (strip request)) ;; Ok (Some r)
    else r <- method_not_allowed now ;; Ok (Some r).
Proof.
  intro Hw. destruct (request_lines request) as [Hfirst _].
  unfold process_response. rewrite Hfirst. cbn [bind]. rewrite Hw.
  reflexivity.
Qed.

(** X8.  A request whose first line has a method other than [GET] and
    [POST], written exactly so, and a target is answered with 405 METHOD
    NOT ALLOWED, the header [Allow: GET, POST] and an empty body; the
    target, the other lines and the files play no part. *)
Theorem unsupported_method_answered_405 (fs : filesystem)
        (now request method target : str) (rest : list str) :
  split_ws (request_line request) = method :: target :: rest ->
  method <> lit "GET" ->
  method <> lit "POST" ->
  forallb is_scalar now = true ->
  process_response fs now request
  = Ok (Some (message (lit "HTTP/1.1 405 METHOD NOT ALLOWED")
                      (response_headers
                         [ header_line (lit "Allow") (lit "GET, POST");
                           header_line (lit "Connection") (lit "close") ]
                         now (lit "text/plain") 0)
                      [])).
Proof.
  intros Hw Hget Hpost Hnow. rewrite (process_response_words fs now _ Hw).
  destruct (str_eqb method (lit "GET")) eqn:E1;
    [apply str_eqb_eq in E1; contradiction | ].
  destruct (str_eqb method (lit "POST")) eqn:E2;
    [apply str_eqb_eq in E2; contradiction | ].
  rewrite method_not_allowed_response by exact Hnow. reflexivity.
Qed.

Lemma unsupported_method_answered_405_witness :
  process_response sample_fs sample_now (lit "get /index.html HTTP/1.1")
  = Ok (Some (message (lit "HTTP/1.1 405 METHOD NOT ALLOWED")
                      (response_headers
                         [ header_line (lit "Allow") (lit "GET, POST");
                           header_line (lit "Connection") (lit "close") ]
                         sample_now (lit "text/plain") 0)
                      [])).
Proof.
  apply (@unsupported_method_answered_405 sample_fs sample_now
           (lit "get /index.html HTTP/1.1") (lit "get") (lit "/index.html")
           [lit "HTTP/1.1"]);
    try (vm_compute; reflexivity); vm_compute; discriminate.
Defined.

(** X9.  A GET of a path that does not exist is answered with 404
    RESOURCE NOT FOUND, the text of [404.html] as body and the content
    type text/html. *)
Theorem missing_path_answered_404 (fs : filesystem) (now target : str)
        (data : list str) (text : str) :
  fs (lit "./" ++ target) = None ->
  read_text fs (lit "./404.html") = Ok text ->
  forallb is_scalar now = true ->
  get_request fs now target data
  = Ok (message (lit "HTTP/1.1 404 RESOURCE NOT FOUND")
                (response_headers [header_line (lit "Connection") (lit "close")]
                                  now (lit "text/html") (List.length (utf8 text)))
                (utf8 text)).
Proof.
  intros Hfs Hread Hnow. pose proof (read_text_scalar _ _ Hread) as Htext.
  unfold get_request, exists_. rewrite Hfs. cbn [negb].
  unfold resource_not_found. rewrite Hread. cbn [bind]. unfold set_content.
  rewrite (encode_scalar _ Htext). cbn [bind].
  apply build_bytes; try reflexivity; assumption.
Qed.

Lemma missing_path_answered_404_witness :
  get_request sample_fs sample_now (lit "nothing.html") []
  = Ok (message (lit "HTTP/1.1 404 RESOURCE NOT FOUND")
                (response_headers [header_line (lit "Connection") (lit "close")]
                                  sample_now (lit "text/html")
                                  (List.length (utf8 (lit "<h1>not found</h1>"))))
                (utf8 (lit "<h1>not found</h1>"))).
Proof.
  apply (@missing_path_answered_404 sample_fs sample_now (lit "nothing.html") []);
    vm_compute; reflexivity.
Defined.

(** X10.  The error pages are opened without a check: when the path asked
    for does not exist and [404.html] is missing, or when the path may not
    be read by others and [403.html] is missing, the GET raises
    FileNotFoundError and no response is returned. *)
Theorem missing_error_page_raises (fs : filesystem) (now target : str)
        (data : list str) :
  (fs (lit "./" ++ target) = None /\ fs (lit "./404.html") = None)
  \/ (exists n, fs (lit "./" ++ target) = Some n
                /\ N.testbit (st_mode n) 2 = false
                /\ fs (lit "./403.html") = None) ->
  get_request fs now target data = Raise FileNotFoundError.
Proof.
  intros [[Hfs Hpage] | (n & Hfs & Hbit & Hpage)];
    unfold get_request, exists_, has_permission_other; rewrite Hfs.
  - cbn [negb]. unfold resource_not_found, read_text, read_binary.
    rewrite Hpage. reflexivity.
  - cbn [negb bind]. rewrite others_read_bit, Hbit. cbn [negb].
    unfold resource_forbidden, read_text, read_binary.
    rewrite Hpage. reflexivity.
Qed.

Lemma missing_error_page_raises_witness :
  get_request bare_fs sample_now (lit "secret.html") [] = Raise FileNotFoundError.
Proof.
  apply (@missing_error_page_raises bare_fs sample_now (lit "secret.html") []).
  right. exists (regular rw_rw____ (utf8 (lit "<p>private</p>"))).
  repeat split; vm_compute; reflexivity.
Defined.

(** X11.  A GET of an existing path that others may read and whose target
    holds no dot, the root [/] among them, raises IndexError: the only dot
    of the resolved path is the one of ["./"], and index 2 of its pieces
    is out of range. *)
Theorem get_without_dot_raises (fs : filesystem) (now target : str)
        (data : list str) (n : node) :
  fs (lit "./" ++ target) = Some n ->
  N.testbit (st_mode n) 2 = true ->
  dots target = 0 ->
  get_request fs now target data = Raise IndexError.
Proof.
  intros Hfs Hbit Hdots.
  unfold get_request, exists_, has_permission_other.
  rewrite Hfs. cbn [negb bind]. rewrite others_read_bit, Hbit. cbn [negb].
  destruct (file_extension_of_target target) as [E _]. rewrite E.
  pose proof (split1_length 46%N target) as Hlen.
  unfold dots in Hdots. rewrite Hdots in Hlen.
  change [46%N] with (lit ".") in Hlen.
  destruct (split (lit ".") target) as [| w [| w' ws]]; try discriminate Hlen.
  reflexivity.
Qed.

Lemma get_without_dot_raises_witness :
  get_request bare_fs sample_now (lit "") [] = Raise IndexError.
Proof.
  apply (@get_without_dot_raises bare_fs sample_now (lit "") []
           {| st_mode := rwxr_xr_x_dir; data := Raise IsADirectoryError |});
    reflexivity.
Defined.

(** *** Text files *)

Lemma mime_scalar (ext mime : str) :
  get_file_mime_type (Some ext) = Ok mime -> forallb is_scalar mime = true.
Proof.
  intro H. apply dict_get_ok in H. simpl in H.
  repeat (destruct H as [H | H]; [inversion H; reflexivity | ]).
  destruct H.
Qed.

Lemma universal_newlines_id (s : str) :
  ~ In 13%N s -> universal_newlines s = s.
Proof.
  induction s as [| c s IH]; intro H; [reflexivity | ].
  cbn [universal_newlines]. destruct (N.eqb_spec c 13) as [E | _].
  - exfalso. apply H. left. exact E.
  - f_equal. apply IH. intro K. apply H. right. exact K.
Qed.

Lemma universal_newlines_no_cr (n : nat) :
  forall s, List.length s <= n -> ~ In 13%N (universal_newlines s).
Proof.
  induction n as [| n IH]; intros s Hlen.
  - destruct s; [intros [] | simpl in Hlen; lia].
  - destruct s as [| c s']; [intros [] | ].
    simpl in Hlen. cbn [universal_newlines].
    destruct (N.eqb_spec c 13) as [E | E].
    + destruct s' as [| d s'']; [intros [K | []]; discriminate K | ].
      simpl in Hlen. destruct (d =? 10)%N;
        (intros [K | K]; [discriminate K | ]);
        revert K; apply IH; simpl; lia.
    + intros [K | K]; [congruence | ]. revert K. apply IH. lia.
Qed.

Lemma utf8_char_length (c : N) : 1 <= List.length (utf8_char c).
Proof.
  unfold utf8_char.
  repeat match goal with
         | |- context [if ?t then _ else _] => destruct t
         end; simpl; lia.
Qed.

Lemma utf8_length_cons (c : N) (s : str) :
  List.length (utf8 (c :: s)) = List.length (utf8_char c) + List.length (utf8 s).
Proof. rewrite utf8_cons. apply length_app. Qed.

Lemma universal_newlines_length (n : nat) :
  forall s, List.length s <= n ->
  List.length (utf8 (universal_newlines s)) <= List.length (utf8 s).
Proof.
  induction n as [| n IH]; intros s Hlen.
  - destruct s; [apply le_n | simpl in Hlen; lia].
  - destruct s as [| c s']; [apply le_n | ].
    simpl in Hlen. cbn [universal_newlines].
    destruct (N.eqb_spec c 13) as [E | E].
    + subst c. destruct s' as [| d s'']; [apply le_n | ].
      simpl in Hlen. destruct (N.eqb_spec d 10) as [E | E].
      * subst d. repeat rewrite utf8_length_cons.
        change (List.length (utf8_char 10)) with 1.
        change (List.length (utf8_char 13)) with 1.
        pose proof (IH s'' ltac:(lia)). lia.
      * rewrite (utf8_length_cons 10), (utf8_length_cons 13).
        change (List.length (utf8_char 10)) with 1.
        change (List.length (utf8_char 13)) with 1.
        pose proof (IH (d :: s'') ltac:(simpl; lia)). lia.
    + rewrite 2 utf8_length_cons. pose proof (IH s' ltac:(lia)). lia.
Qed.

Lemma in_utf8_cr (s : str) : In 13%N s -> In x0d (utf8 s).
Proof.
  induction s as [| c s IH]; intro H; [destruct H | ].
  rewrite utf8_cons. apply in_or_app. destruct H as [-> | H].
  - left. left. reflexivity.
  - right. exact (IH H).
Qed.

(** Only the character CR encodes to a CR byte. *)
Lemma utf8_char_cr (c : N) :
  is_scalar c = true -> In x0d (utf8_char c) -> c = 13%N.
Proof.
  unfold is_scalar, utf8_char. intro Hc.
  apply orb_true_iff in Hc. destruct Hc as [Hc | Hc]; bools.
  all: repeat match goal with
              | |- context [if ?t then _ else _] => destruct t eqn:?
              end; bools; try (exfalso; lia).
  all: name_digits c.
  all: match goal with
       | Hin : In _ _ |- _ =>
           cbn [In] in Hin;
           repeat (destruct Hin as [Hin | Hin];
                   [ apply (f_equal Byte.to_N) in Hin;
                     rewrite to_N_byte_of_N in Hin by lia;
                     change (Byte.to_N x0d) with 13%N in Hin; lia | ]);
           destruct Hin
       end.
Qed.

Lemma utf8_no_cr (s : str) :
  forallb is_scalar s = true -> ~ In 13%N s -> ~ In x0d (utf8 s).
Proof.
  induction s as [| c s IH]; intros Hs Hno Hin; [exact Hin | ].
  simpl in Hs. apply andb_true_iff in Hs. destruct Hs as [Hc Hs].
  rewrite utf8_cons in Hin. apply in_app_or in Hin. destruct Hin as [Hin | Hin].
  - apply Hno. left. apply utf8_char_cr; assumption.
  - apply (IH Hs); [ | exact Hin]. intro K. apply Hno. right. exact K.
Qed.

(** The answer to a GET of a readable file that is read in text mode. *)
Lemma get_request_text (fs : filesystem) (now target : str) (data : list str)
      (n : node) (raw : bytes) (ext mime text : str) :
  fs (lit "./" ++ target) = Some n ->
  N.testbit (st_mode n) 2 = true ->
  Py.data n = Ok raw ->
  file_extension_of (lit "./" ++ target) = Ok ext ->
  should_return_binary ext = false ->
  get_file_mime_type (Some ext) = Ok mime ->
  decode Strict raw = Ok text ->
  forallb is_scalar now = true ->
  get_request fs now target data
  = Ok (message (lit "HTTP/1.1 200 OK")
                (response_headers [header_line (lit "Connection") (lit "close")]
                                  now mime
                                  (List.length (utf8 (universal_newlines text))))
                (utf8 (universal_newlines text))).
Proof.
  intros Hfs Hbit Hdata Hext Hbin Hmime Hdec Hnow.
  assert (Hread : read_text fs (lit "./" ++ target) = Ok (universal_newlines text)).
  { unfold read_text, read_binary. rewrite Hfs, Hdata. cbn [bind].
    rewrite Hdec. reflexivity. }
  apply (@get_request_ok fs now target data n ext mime
                         (VStr (universal_newlines text))); try assumption.
  - rewrite Hbin. unfold read_file. rewrite Hread. reflexivity.
  - intros s E. inversion E. subst s. exact (read_text_scalar _ _ Hread).
  - reflexivity.
  - exact (mime_scalar _ Hmime).
Qed.

(** X12.  A GET of a file that others may read, that [open] reads, that
    is read in text mode and whose extension is in the table of types is
    answered with 200 OK, the type of the table and, as body, the text of
    the file (its bytes decoded, CR LF and CR read as LF) encoded again;
    that body is the file, byte for byte, exactly when the file holds no
    CR byte. *)
Theorem text_file_served (fs : filesystem) (now target : str) (data : list str)
        (n : node) (raw : bytes) (ext mime text : str) :
  fs (lit "./" ++ target) = Some n ->
  N.testbit (st_mode n) 2 = true ->
  Py.data n = Ok raw ->
  file_extension_of (lit "./" ++ target) = Ok ext ->
  should_return_binary ext = false ->
  get_file_mime_type (Some ext) = Ok mime ->
  decode Strict raw = Ok text ->
  forallb is_scalar now = true ->
  get_request fs now target data
  = Ok (message (lit "HTTP/1.1 200 OK")
                (response_headers [header_line (lit "Connection") (lit "close")]
                                  now mime
                                  (List.length (utf8 (universal_newlines text))))
                (utf8 (universal_newlines text)))
  /\ (utf8 (universal_newlines text) = raw <-> ~ In x0d raw).
Proof.
  intros Hfs Hbit Hdata Hext Hbin Hmime Hdec Hnow. split.
  - eapply get_request_text; eassumption.
  - pose proof (utf8_decode _ Hdec) as Hraw.
    assert (Hs : forallb is_scalar text = true).
    { unfold decode in Hdec.
      apply (@decode_N_scalar Strict (List.length (map Byte.to_N raw))
                              (map Byte.to_N raw)); [lia | exact Hdec]. }
    split.
    + intros E Hin. rewrite <- E in Hin. revert Hin. apply utf8_no_cr.
      * apply (@universal_newlines_scalar (List.length text)); [lia | exact Hs].
      * apply (@universal_newlines_no_cr (List.length text)). lia.
    + intro Hno. rewrite universal_newlines_id; [exact Hraw | ].
      intro K. apply Hno. rewrite <- Hraw. exact (in_utf8_cr _ K).
Qed.

Lemma text_file_served_witness :
  get_request bare_fs sample_now (lit "dos.html") []
  = Ok (message (lit "HTTP/1.1 200 OK")
                (response_headers [header_line (lit "Connection") (lit "close")]
                                  sample_now (lit "text/html")
                                  (List.length
                                     (utf8 (universal_newlines
                                              [104; 105; 13; 10; 233; 13; 10]%N))))
                (utf8 (universal_newlines [104; 105; 13; 10; 233; 13; 10]%N)))
  /\ (utf8 (universal_newlines [104; 105; 13; 10; 233; 13; 10]%N)
      = [x68; x69; x0d; x0a; xc3; xa9; x0d; x0a]
      <-> ~ In x0d [x68; x69; x0d; x0a; xc3; xa9; x0d; x0a]).
Proof.
  apply (@text_file_served bare_fs sample_now (lit "dos.html") []
           (regular rw_r__r__ [x68; x69; x0d; x0a; xc3; xa9; x0d; x0a])
           [x68; x69; x0d; x0a; xc3; xa9; x0d; x0a] (lit "html") (lit "text/html")
           [104; 105; 13; 10; 233; 13; 10]%N);
    reflexivity.
Defined.

(** X13.  The body that answers a GET of a file read in text mode is the
    text of the file encoded again; it holds no CR byte and is never
    longer than the file: CR LF and a lone CR of the file are sent as LF,
    and Content-Length counts the bytes sent. *)
Theorem text_body_has_no_cr (fs : filesystem) (now target : str)
        (data : list str) (n : node) (raw : bytes) (ext mime text : str) :
  fs (lit "./" ++ target) = Some n ->
  N.testbit (st_mode n) 2 = true ->
  Py.data n = Ok raw ->
  file_extension_of (lit "./" ++ target) = Ok ext ->
  should_return_binary ext = false ->
  get_file_mime_type (Some ext) = Ok mime ->
  decode Strict raw = Ok text ->
  forallb is_scalar now = true ->
  let body := utf8 (universal_newlines text) in
  get_request fs now target data
  = Ok (message (lit "HTTP/1.1 200 OK")
                (response_headers [header_line (lit "Connection") (lit "close")]
                                  now mime (List.length body))
                body)
  /\ ~ In x0d body
  /\ List.length body <= List.length raw.
Proof.
  intros Hfs Hbit Hdata Hext Hbin Hmime Hdec Hnow body. subst body. split.
  - eapply get_request_text; eassumption.
  - pose proof (utf8_decode _ Hdec) as Hraw.
    assert (Hs : forallb is_scalar text = true).
    { unfold decode in Hdec.
      apply (@decode_N_scalar Strict (List.length (map Byte.to_N raw))
                              (map Byte.to_N raw)); [lia | exact Hdec]. }
    split.
    + apply utf8_no_cr.
      * apply (@universal_newlines_scalar (List.length text)); [lia | exact Hs].
      * apply (@universal_newlines_no_cr (List.length text)). lia.
    + rewrite <- Hraw.
      apply (@universal_newlines_length (List.length text)). lia.
Qed.

Lemma text_body_has_no_cr_witness :
  let body := utf8 (universal_newlines [104; 105; 13; 10; 233; 13; 10]%N) in
  get_request bare_fs sample_now (lit "dos.html") []
  = Ok (message (lit "HTTP/1.1 200 OK")
                (response_headers [header_line (lit "Connection") (lit "close")]
                                  sample_now (lit "text/html") (List.length body))
                body)
  /\ ~ In x0d body
  /\ List.length body
     <= List.length [x68; x69; x0d; x0a; xc3; xa9; x0d; x0a].
Proof.
  apply (@text_body_has_no_cr bare_fs sample_now (lit "dos.html") []
           (regular rw_r__r__ [x68; x69; x0d; x0a; xc3; xa9; x0d; x0a])
           [x68; x69; x0d; x0a; xc3; xa9; x0d; x0a] (lit "html") (lit "text/html")
           [104; 105; 13; 10; 233; 13; 10]%N);
    reflexivity.
Defined.

(** ** What a request is answered from *)

(** X14.  The answer to a GET depends on the target without its first
    character and on nothing else of the request: the first character of
    the target, whether a slash or not, the protocol version and the
    header lines are not looked at. *)
Theorem get_answer_from_target_tail (fs : filesystem) (now r1 r2 t1 t2 : str)
        (rest1 rest2 : list str) :
  split_ws (request_line r1) = lit "GET" :: t1 :: rest1 ->
  split_ws (request_line r2) = lit "GET" :: t2 :: rest2 ->
  slice_from1 t1 = slice_from1 t2 ->
  process_response fs now r1 = process_response fs now r2.
Proof.
  intros H1 H2 Ht.
  rewrite (process_response_words fs now _ H1).
  rewrite (process_response_words fs now _ H2).
  rewrite str_eqb_refl, Ht. reflexivity.
Qed.

Lemma get_answer_from_target_tail_witness :
  process_response sample_fs sample_now plain_get
  = process_response sample_fs sample_now dressed_get.
Proof.
  apply (@get_answer_from_target_tail sample_fs sample_now plain_get dressed_get
           (lit "/secret.html") (lit "xsecret.html")
           [lit "HTTP/1.1"] [lit "HTTP/1.0"]);
    vm_compute; reflexivity.
Defined.

Lemma post_request_from_last (now rf1 rf2 : str) (d1 d2 : list str) :
  getlast d1 = getlast d2 -> post_request now rf1 d1 = post_request now rf2 d2.
Proof. intro H. unfold post_request. rewrite H. reflexivity. Qed.

(** X15.  The answer to a POST depends on the last line of the request
    and on nothing else: the target, the version, the header lines and
    the files are not looked at. *)
Theorem post_answer_from_last_line (fs1 fs2 : filesystem) (now r1 r2 t1 t2 : str)
        (rest1 rest2 : list str) :
  split_ws (request_line r1) = lit "POST" :: t1 :: rest1 ->
  split_ws (request_line r2) = lit "POST" :: t2 :: rest2 ->
  body_line r1 = body_line r2 ->
  process_response fs1 now r1 = process_response fs2 now r2.
Proof.
  intros H1 H2 Hb.
  rewrite (process_response_words fs1 now _ H1).
  rewrite (process_response_words fs2 now _ H2).
  change (str_eqb (lit "POST") (lit "GET")) with false.
  rewrite str_eqb_refl. cbv iota.
  destruct (request_lines r1) as [_ L1]. destruct (request_lines r2) as [_ L2].
  rewrite (@post_request_from_last now (slice_from1 t1) (slice_from1 t2)
             (split NEWLINE (strip r1)) (split NEWLINE (strip r2)));
    [reflexivity | ].
  rewrite L1, L2, Hb. reflexivity.
Qed.

Lemma post_answer_from_last_line_witness :
  process_response sample_fs sample_now plain_post
  = process_response bare_fs sample_now other_post.
Proof.
  apply (@post_answer_from_last_line sample_fs bare_fs sample_now
           plain_post other_post (lit "/") (lit "/elsewhere?x=1")
           [lit "HTTP/1.1"] [lit "HTTP/1.0"]);
    vm_compute; reflexivity.
Defined.

(** *** The values of a form *)

Lemma join_cons_char (sep : str) (c : N) (w : str) (ws : list str) :
  join sep ((c :: w) :: ws) = c :: join sep (w :: ws).
Proof. destruct ws; reflexivity. Qed.

(** Replacing one character by another is done character by character. *)
Lemma replace_chars (a b : N) (s : str) :
  replace [a] [b] s = map (fun c => if (c =? a)%N then b else c) s.
Proof.
  unfold replace. induction s as [| c s IH]; [reflexivity | ].
  destruct (split_nonempty [a] s) as (w & ws & Es).
  cbn [map]. destruct (N.eqb_spec c a) as [-> | Hc].
  - rewrite split1_sep. rewrite Es in *.
    change (join [b] ([] :: w :: ws)) with (b :: join [b] (w :: ws)).
    rewrite IH. reflexivity.
  - rewrite split1_other by exact Hc. rewrite Es in *. cbn [hd tl].
    rewrite join_cons_char, IH. reflexivity.
Qed.

Lemma split1_second (c : N) (s : str) :
  In c s -> exists w v rest, split [c] s = w :: v :: rest.
Proof.
  intro H. pose proof (split1_length c s) as Hlen.
  assert (Hc : count_occ N.eq_dec s c > 0) by (apply count_occ_In; exact H).
  destruct (split [c] s) as [| w [| v rest]]; simpl in Hlen; try lia.
  exists w, v, rest. reflexivity.
Qed.

Lemma formatString_value (f : str) :
  In 61%N f -> formatString f = Ok (field_value f).
Proof.
  intro H. unfold formatString, field_value.
  change (lit "=") with [61%N].
  destruct (split1_second _ _ H) as (w & v & rest & E). rewrite E.
  reflexivity.
Qed.

Lemma formatString_bare (f : str) :
  ~ In 61%N f -> formatString f = Raise IndexError.
Proof.
  intro H. unfold formatString. change (lit "=") with [61%N].
  rewrite split1_whole by exact H. reflexivity.
Qed.

(** X18.  [formatString] gives the text between the first and the second
    ['='] of a fragment: a value that holds ['='] is cut there, what
    follows is dropped. *)
Theorem formatString_stops_at_second_equals (k v rest : str) :
  ~ In 61%N k ->
  ~ In 61%N v ->
  formatString (k ++ lit "=" ++ v ++ lit "=" ++ rest) = Ok (plus_to_space v).
Proof.
  intros Hk Hv. unfold formatString. change (lit "=") with [61%N].
  change (k ++ [61%N] ++ v ++ [61%N] ++ rest) with (k ++ 61%N :: v ++ 61%N :: rest).
  rewrite split1_piece by exact Hk. rewrite split1_piece by exact Hv.
  reflexivity.
Qed.

Lemma formatString_stops_at_second_equals_witness :
  formatString (lit "url" ++ lit "=" ++ lit "http://x.org/?q" ++ lit "=" ++ lit "1+2")
  = Ok (plus_to_space (lit "http://x.org/?q")).
Proof.
  apply (@formatString_stops_at_second_equals (lit "url") (lit "http://x.org/?q")
           (lit "1+2"));
    vm_compute; intuition discriminate.
Defined.

(** X19.  The value [formatString] returns is the second piece of the
    fragment with every ['+'] turned into a space, character by
    character: it has the length of that piece and holds no ['+']. *)
Theorem formatString_replaces_plus (f v : str) :
  formatString f = Ok v ->
  v = map (fun c => if (c =? 43)%N then 32%N else c)
          (nth 1 (split (lit "=") f) [])
  /\ List.length v = List.length (nth 1 (split (lit "=") f) [])
  /\ ~ In 43%N v.
Proof.
  intro H. unfold formatString, getitem in H.
  destruct (split (lit "=") f) as [| w [| e rest]];
    cbn [nth_error bind] in H; try discriminate H.
  inversion H as [Hv]. clear H. cbn [nth].
  change (lit "+") with [43%N]. change (lit " ") with [32%N].
  rewrite replace_chars. split; [reflexivity | ]. split.
  - apply length_map.
  - intro Hin. apply in_map_iff in Hin. destruct Hin as (c & Hc & _).
    revert Hc. destruct (N.eqb_spec c 43) as [E | Hne]; intro Hc;
      [discriminate Hc | congruence].
Qed.

Lemma formatString_replaces_plus_witness :
  lit "Hall B"
  = map (fun c => if (c =? 43)%N then 32%N else c)
        (nth 1 (split (lit "=") (lit "location=Hall+B")) [])
  /\ List.length (lit "Hall B")
     = List.length (nth 1 (split (lit "=") (lit "location=Hall+B")) [])
  /\ ~ In 43%N (lit "Hall B").
Proof.
  apply (@formatString_replaces_plus (lit "location=Hall+B") (lit "Hall B")).
  reflexivity.
Defined.

(** *** Decoded text can be encoded *)

Lemma unquote_chunk_scalar (chunk : str) :
  forallb is_scalar (unquote_chunk chunk) = true.
Proof.
  unfold unquote_chunk.
  destruct (decode_N Replace (unquote_to_bytes chunk)) as [s | e] eqn:E;
    [ | reflexivity].
  apply (@decode_N_scalar Replace (List.length (unquote_to_bytes chunk))
                          (unquote_to_bytes chunk)); [lia | exact E].
Qed.

Lemma unquote_parts_scalar (s run : str) :
  forallb is_scalar s = true -> forallb is_scalar (unquote_parts run s) = true.
Proof.
  revert run. induction s as [| c s IH]; intros run H; cbn [unquote_parts].
  - apply unquote_chunk_scalar.
  - simpl in H. apply andb_true_iff in H. destruct H as [Hc Hs].
    destruct (c <? 128)%N; [apply IH; exact Hs | ].
    rewrite scalar_lit_app, unquote_chunk_scalar. cbn [forallb andb].
    rewrite Hc. apply IH. exact Hs.
Qed.

Lemma unquote_scalar (s : str) :
  forallb is_scalar s = true -> forallb is_scalar (unquote s) = true.
Proof.
  intro H. unfold unquote. destruct (existsb (N.eqb 37) s); [ | exact H].
  apply unquote_parts_scalar. exact H.
Qed.

Lemma split1_scalar (c : N) (s w : str) :
  forallb is_scalar s = true -> In w (split [c] s) -> forallb is_scalar w = true.
Proof.
  intros Hs Hw. apply forallb_forall. intros x Hx.
  rewrite forallb_forall in Hs. apply Hs. exact (split1_in _ _ _ _ Hw Hx).
Qed.

Lemma field_value_scalar (f : str) :
  forallb is_scalar f = true -> forallb is_scalar (field_value f) = true.
Proof.
  intro Hf. unfold field_value. apply scalar_plus_to_space.
  change (lit "=") with [61%N].
  destruct (nth_in_or_default 1 (split [61%N] f) []) as [Hin | ->];
    [ | reflexivity].
  eapply split1_scalar; eassumption.
Qed.

(** X16.  When the decoded last line of a POST has eight fragments or
    more and each of the first eight holds ['='], the handler answers
    200 with the page of the eight values, whatever their keys: the value
    of a fragment is its text between the first and the second ['='],
    every ['+'] a space, and the fragments after the eighth are
    dropped. *)
Theorem post_echoes_first_eight (now rf : str) (data : list str) (body : str)
        (firsts more : list str) :
  getlast data = Ok body ->
  form_fields body = firsts ++ more ->
  List.length firsts = 8 ->
  Forall (fun f => In 61%N f) firsts ->
  forallb is_scalar body = true ->
  forallb is_scalar now = true ->
  let html := page (map field_value firsts) in
  post_request now rf data
  = Ok (message (lit "HTTP/1.1 200 OK")
                (response_headers [header_line (lit "Connection") (lit "close")]
                                  now (lit "text/html") (List.length (utf8 html)))
                (utf8 html)).
Proof.
  intros Hlast Hfields Hlen Heq Hbody Hnow html.
  assert (Hpage : forallb is_scalar html = true).
  { apply scalar_page. apply forallb_forall. intros v Hv.
    apply in_map_iff in Hv. destruct Hv as (f & <- & Hf).
    apply field_value_scalar.
    apply (@split1_scalar 38%N (unquote body));
      [apply unquote_scalar; exact Hbody | ].
    change [38%N] with (lit "&"). fold (form_fields body).
    rewrite Hfields. apply in_or_app. left. exact Hf. }
  subst html. unfold post_request. rewrite Hlast. cbn [bind].
  fold (form_fields body). rewrite Hfields.
  eight firsts. split_forall.
  unfold format_field. cbn [app getitem nth_error bind].
  repeat (rewrite formatString_value by assumption; cbn [bind]).
  rewrite html_page_rows. unfold set_content.
  cbn [map] in Hpage |- *.
  rewrite (encode_scalar _ Hpage). cbn [bind].
  apply build_bytes; try reflexivity; assumption.
Qed.

Lemma post_echoes_first_eight_witness :
  let html := page (map field_value loose_fields) in
  post_request sample_now (lit "") [loose_form]
  = Ok (message (lit "HTTP/1.1 200 OK")
                (response_headers [header_line (lit "Connection") (lit "close")]
                                  sample_now (lit "text/html")
                                  (List.length (utf8 html)))
                (utf8 html)).
Proof.
  apply (@post_echoes_first_eight sample_now (lit "") [loose_form] loose_form
           loose_fields [lit "more"]);
    try (vm_compute; reflexivity).
  repeat (apply Forall_cons; [vm_compute; intuition | ]). apply Forall_nil.
Defined.

Ltac field_or_raise l j :=
  let E := fresh "E" in
  destruct (format_field_cases l j) as [(?v & E & _) | E];
  rewrite E; cbn [bind]; [ | reflexivity].

(** X17.  When one of the first eight fragments of the decoded last line
    of a POST holds no ['='], the handler raises IndexError. *)
Theorem fragment_without_equals_raises (now rf : str) (data : list str)
        (body f : str) (i : nat) :
  getlast data = Ok body ->
  nth_error (form_fields body) i = Some f ->
  i < 8 ->
  ~ In 61%N f ->
  post_request now rf data = Raise IndexError.
Proof.
  intros Hlast Hnth Hi Hf.
  assert (Hraise : format_field (form_fields body) i = Raise IndexError).
  { unfold format_field, getitem. rewrite Hnth. cbn [bind].
    apply formatString_bare. exact Hf. }
  unfold post_request. rewrite Hlast. cbn [bind]. fold (form_fields body).
  set (l := form_fields body) in *.
  field_or_raise l 0. field_or_raise l 1. field_or_raise l 2.
  field_or_raise l 3. field_or_raise l 4. field_or_raise l 5.
  field_or_raise l 6. field_or_raise l 7.
  exfalso.
  do 8 (destruct i as [| i]; [congruence | ]). lia.
Qed.

Lemma fragment_without_equals_raises_witness :
  post_request sample_now (lit "") [bare_form] = Raise IndexError.
Proof.
  apply (@fragment_without_equals_raises sample_now (lit "") [bare_form]
           bare_form (lit "start") 2);
    try (vm_compute; reflexivity).
  - lia.
  - vm_compute. intuition discriminate.
Defined.

(** *** Received bytes *)

(** X20.  A request received as the UTF-8 bytes of a text is processed as
    that text: the response [process_response] returns for it is what is
    sent, and nothing is sent when it raises or returns [None]. *)
Theorem accept_request_utf8 (fs : filesystem) (now request : str) :
  forallb is_scalar request = true ->
  accept_request fs now (utf8 request)
  = match process_response fs now request with
    | Ok (Some response) => Some response
    | _ => None
    end.
Proof.
  intro H. unfold accept_request. rewrite decode_utf8 by exact H. cbn [bind].
  destruct (process_response fs now request) as [[r | ] | e]; reflexivity.
Qed.

Lemma accept_request_utf8_witness :
  accept_request sample_fs sample_now (utf8 plain_get)
  = match process_response sample_fs sample_now plain_get with
    | Ok (Some response) => Some response
    | _ => None
    end.
Proof.
  apply (@accept_request_utf8 sample_fs sample_now plain_get). reflexivity.
Defined.

Lemma lstrip_spaces (s : str) : forallb isspace s = true -> lstrip s = [].
Proof.
  induction s as [| c s IH]; intro H; [reflexivity | ].
  simpl in H. apply andb_true_iff in H. destruct H as [Hc Hs].
  cbn [lstrip]. rewrite Hc. exact (IH Hs).
Qed.

Lemma isspace_scalar (c : N) : isspace c = true -> is_scalar c = true.
Proof.
  unfold isspace, is_scalar. intro H. cases_of_tests;
    apply orb_true_iff; left; apply N.ltb_lt; lia.
Qed.

(** X21.  A request that holds white space only, the empty request among
    them, has no word on its first line: [process_response] returns
    [None], without an error, and nothing is sent. *)
Theorem blank_request_unanswered (fs : filesystem) (now request : str) :
  forallb isspace request = true ->
  process_response fs now request = Ok None
  /\ accept_request fs now (utf8 request) = None.
Proof.
  intro H.
  assert (Hp : process_response fs now request = Ok None).
  { unfold process_response, strip. rewrite (@lstrip_spaces request H).
    reflexivity. }
  split; [exact Hp | ].
  unfold accept_request. rewrite decode_utf8; [cbn [bind]; rewrite Hp; reflexivity | ].
  apply forallb_forall. intros c Hc. apply isspace_scalar.
  rewrite forallb_forall in H. exact (H c Hc).
Qed.

Lemma blank_request_unanswered_witness :
  process_response sample_fs sample_now blank_request = Ok None
  /\ accept_request sample_fs sample_now (utf8 blank_request) = None.
Proof.
  apply (@blank_request_unanswered sample_fs sample_now blank_request).
  reflexivity.
Defined.

(** ** What the handlers never do *)

Lemma getitem_raise {A} (l : list A) (i : nat) (e : exn) :
  getitem l i = Raise e -> e = IndexError.
Proof.
  unfold getitem. destruct (nth_error l i); intro H; [discriminate H | ].
  inversion H. reflexivity.
Qed.

(** X22.  A GET of a path that others may read and that [open] refuses,
    with IsADirectoryError for a directory or PermissionError when the
    server itself may not read the file, is never answered: it raises
    IndexError when the target holds no dot, index 2 being taken before
    the file is opened, and the error of [open] otherwise. *)
Theorem get_refused_by_open_raises (fs : filesystem) (now target : str)
        (data : list str) (n : node) (e : exn) :
  fs (lit "./" ++ target) = Some n ->
  N.testbit (st_mode n) 2 = true ->
  Py.data n = Raise e ->
  (dots target = 0 -> get_request fs now target data = Raise IndexError)
  /\ (1 <= dots target -> get_request fs now target data = Raise e).
Proof.
  intros Hfs Hbit Hdata.
  assert (Hget : get_request fs now target data
                 = (ext <- getitem (split (lit ".") target) 1 ;; Raise e)).
  { unfold get_request, exists_, has_permission_other.
    rewrite Hfs. cbn [negb bind]. rewrite others_read_bit, Hbit. cbn [negb].
    destruct (file_extension_of_target target) as [E _]. rewrite E.
    destruct (getitem (split (lit ".") target) 1) as [ext | e']; cbn [bind];
      [ | reflexivity].
    unfold read_file, read_text, read_binary. rewrite Hfs, Hdata.
    destruct (should_return_binary ext); reflexivity. }
  rewrite Hget.
  pose proof (split1_length 46%N target) as Hlen.
  change [46%N] with (lit ".") in Hlen. unfold dots.
  destruct (split (lit ".") target) as [| w [| w' ws]];
    simpl in Hlen; split; intro Hd; try lia; reflexivity.
Qed.

Lemma get_refused_by_open_raises_witness :
  (dots (lit "mine.html") = 0 ->
   get_request owner_fs sample_now (lit "mine.html") [] = Raise IndexError)
  /\ (1 <= dots (lit "mine.html") ->
      get_request owner_fs sample_now (lit "mine.html") [] = Raise PermissionError).
Proof.
  apply (@get_refused_by_open_raises owner_fs sample_now (lit "mine.html") []
           {| st_mode := others_only; data := Raise PermissionError |});
    reflexivity.
Defined.

Lemma getlast_in {A} (l : list A) (a : A) : getlast l = Ok a -> In a l.
Proof.
  unfold getlast. destruct (rev l) as [| x r] eqn:E; intro H; [discriminate H | ].
  inversion H. subst x. apply in_rev. rewrite E. left. reflexivity.
Qed.

Lemma format_field_scalar (l : list str) (j : nat) (v : str) :
  (forall f, In f l -> forallb is_scalar f = true) ->
  format_field l j = Ok v -> forallb is_scalar v = true.
Proof.
  intros Hl H. unfold format_field, getitem in H.
  destruct (nth_error l j) as [f | ] eqn:E; cbn [bind] in H; [ | discriminate H].
  pose proof (Hl f (nth_error_In _ _ E)) as Hf.
  unfold formatString, getitem in H.
  destruct (nth_error (split (lit "=") f) 1) as [e | ] eqn:Ee;
    cbn [bind] in H; [ | discriminate H].
  inversion H. apply scalar_plus_to_space.
  apply (@split1_scalar 61%N f); [exact Hf | ].
  exact (nth_error_In _ _ Ee).
Qed.

Ltac scalar_field_or_raise l j Hl :=
  let E := fresh "E" in
  let S := fresh "S" in
  destruct (format_field_cases l j) as [(?v & E & _) | E];
  [ pose proof (format_field_scalar l j Hl E) as S; rewrite E; cbn [bind]
  | rewrite E; right; reflexivity ].

(** X23.  For a request of encodable lines the POST handler either
    returns a response or raises IndexError: it raises no other
    error. *)
Theorem post_raises_only_index_error (now rf : str) (data : list str) :
  forallb (forallb is_scalar) data = true ->
  forallb is_scalar now = true ->
  (exists msg, post_request now rf data = Ok msg)
  \/ post_request now rf data = Raise IndexError.
Proof.
  intros Hdata Hnow. unfold post_request.
  destruct (getlast data) as [body | e] eqn:Hlast; cbn [bind].
  2:{ right. unfold getlast in Hlast. destruct (rev data); [ | discriminate Hlast].
      inversion Hlast. reflexivity. }
  assert (Hbody : forallb is_scalar body = true).
  { rewrite forallb_forall in Hdata. apply Hdata. exact (getlast_in _ Hlast). }
  set (l := split (lit "&") (unquote body)).
  assert (Hl : forall f, In f l -> forallb is_scalar f = true).
  { intros f Hf. apply (@split1_scalar 38%N (unquote body));
      [apply unquote_scalar; exact Hbody | exact Hf]. }
  scalar_field_or_raise l 0 Hl. scalar_field_or_raise l 1 Hl.
  scalar_field_or_raise l 2 Hl. scalar_field_or_raise l 3 Hl.
  scalar_field_or_raise l 4 Hl. scalar_field_or_raise l 5 Hl.
  scalar_field_or_raise l 6 Hl. scalar_field_or_raise l 7 Hl.
  left. rewrite html_page_rows. unfold set_content.
  rewrite encode_scalar.
  - cbn [bind]. eexists. apply build_bytes; try reflexivity. exact Hnow.
  - apply scalar_page. cbn [forallb].
    repeat match goal with H : forallb is_scalar _ = true |- _ =>
                             rewrite H; clear H end.
    reflexivity.
Qed.

Lemma post_raises_only_index_error_witness :
  (exists msg, post_request sample_now (lit "") [bare_form] = Ok msg)
  \/ post_request sample_now (lit "") [bare_form] = Raise IndexError.
Proof.
  apply (@post_raises_only_index_error sample_now (lit "") [bare_form]);
    reflexivity.
Defined.

(** ** The two readers *)

(** X24.  Where [get_file_contents] returns the text of a file,
    [get_file_binary_contents] returns its bytes, and the text encodes
    back to those bytes exactly when the file holds no CR byte; the
    encoded text is never longer than the file. *)
Theorem file_contents_agree (fs : filesystem) (file_name text : str) :
  get_file_contents fs file_name = Ok text ->
  exists raw,
    get_file_binary_contents fs file_name = Ok raw
    /\ (utf8 text = raw <-> ~ In x0d raw)
    /\ List.length (utf8 text) <= List.length raw.
Proof.
  unfold get_file_contents, get_file_binary_contents, read_text. intro H.
  apply bind_ok in H. destruct H as (raw & Hraw & H).
  apply bind_ok in H. destruct H as (s & Hdec & H).
  inversion H. subst text. clear H.
  exists raw. split; [exact Hraw | ].
  pose proof (utf8_decode _ Hdec) as Hs.
  assert (Hscalar : forallb is_scalar s = true).
  { unfold decode in Hdec.
    apply (@decode_N_scalar Strict (List.length (map Byte.to_N raw))
                            (map Byte.to_N raw)); [lia | exact Hdec]. }
  split; [split | ].
  - intros E Hin. rewrite <- E in Hin. revert Hin. apply utf8_no_cr.
    + apply (@universal_newlines_scalar (List.length s)); [lia | exact Hscalar].
    + apply (@universal_newlines_no_cr (List.length s)). lia.
  - intro Hno. rewrite universal_newlines_id; [exact Hs | ].
    intro K. apply Hno. rewrite <- Hs. apply in_utf8_cr. exact K.
  - rewrite <- Hs. apply (@universal_newlines_length (List.length s)). lia.
Qed.

Lemma file_contents_agree_witness :
  exists raw,
    get_file_binary_contents bare_fs (lit "./dos.html") = Ok raw
    /\ (utf8 [104; 105; 10; 233; 10]%N = raw <-> ~ In x0d raw)
    /\ List.length (utf8 [104; 105; 10; 233; 10]%N) <= List.length raw.
Proof.
  apply (@file_contents_agree bare_fs (lit "./dos.html") [104; 105; 10; 233; 10]%N).
  reflexivity.
Defined.
